(** * Draftly client: session store and document workflow

    A shallow embedding of the React/TypeScript client
    (context/AuthContext, lib/api, pages/ProjectDetailPage,
    pages/ProjectsPage) and the properties of its session and
    section-editing state machines.

    Conventions of the embedding.
    - A value of type [string | null] is an [option string]; JavaScript
      truthiness of such a value is [truthy].
    - [api.defaults.headers.common] and [localStorage] are finite maps
      from strings.
    - An asynchronous handler is a function in a state-and-exception
      monad; the reply of the server to each request the handler issues
      is an argument of the handler, so a statement that quantifies
      over the replies covers every behaviour of the backend.
    - [useState] cells are record fields; a [useEffect] is a function
      applied when the render that follows a state change commits. *)

From Stdlib Require Import ZArith.
From stdpp Require Import gmap strings list fin_maps.

Open Scope Z_scope.
Open Scope string_scope.
Open Scope list_scope.

(** ** A state-and-exception monad for event handlers *)

Section StateExn.
Context {S E : Type}.

Definition M (A : Type) : Type := S -> (E + A) * S.

Definition ret {A} (a : A) : M A := fun s => (inr a, s).

Definition bind {A B} (c : M A) (k : A -> M B) : M B :=
  fun s => match c s with
           | (inr a, s') => k a s'
           | (inl e, s') => (inl e, s')
           end.

Definition throw {A} (e : E) : M A := fun s => (inl e, s).

Definition modify (f : S -> S) : M unit := fun s => (inr tt, f s).

Definition gets {A} (f : S -> A) : M A := fun s => (inr (f s), s).

(** [try { body } catch (err) { handler err }] *)
Definition try_catch {A} (body : M A) (handler : E -> M A) : M A :=
  fun s => match body s with
           | (inr a, s') => (inr a, s')
           | (inl e, s') => handler e s'
           end.

(** [try { body } finally { cleanup }]: the cleanup runs on both exits
    and the outcome of the body is kept. *)
Definition finally {A} (body : M A) (cleanup : M unit) : M A :=
  fun s => match body s with
           | (r, s') => match cleanup s' with
                        | (inr _, s'') => (r, s'')
                        | (inl e, s'') => (inl e, s'')
                        end
           end.

Definition exec {A} (c : M A) (s : S) : S := snd (c s).
Definition outcome {A} (c : M A) (s : S) : E + A := fst (c s).
End StateExn.

Arguments M : clear implicits.

Notation "'do' x <- c ; k" := (bind c (fun x => k))
  (at level 10, x name, c at level 100, k at level 200).
Notation "c ;; k" := (bind c (fun _ => k))
  (at level 100, k at level 200, right associativity).

(** ** JavaScript truthiness of strings *)

Definition truthy_string (s : string) : bool := negb (String.eqb s "").

Definition truthy (v : option string) : bool :=
  match v with
  | Some s => truthy_string s
  | None => false
  end.

(** ** Errors delivered by the axios client

    [error.response] is absent when no response arrived (time-out,
    network failure); otherwise it carries the HTTP status and the
    [detail] field of the body, when the body has one. *)

Record ErrorResponse := { status : Z; detail : option string }.
Record AxiosError := { response : option ErrorResponse }.

Inductive AxiosResult (A : Type) :=
| Resolved (data : A)
| RejectedWith (error : AxiosError).
Arguments Resolved {A} data.
Arguments RejectedWith {A} error.

(** [error.response?.status === code] *)
Definition has_status (error : AxiosError) (code : Z) : bool :=
  match response error with
  | Some r => Z.eqb (status r) code
  | None => false
  end.

(** [err?.response?.data?.detail ?? fallback] *)
Definition detail_or (error : AxiosError) (fallback : string) : string :=
  match response error with
  | Some r => default fallback (detail r)
  | None => fallback
  end.

Definition http_error (code : Z) (d : option string) : AxiosError :=
  {| response := Some {| status := code; detail := d |} |}.

(** ** Session store (context/AuthContext.tsx) and transport (lib/api.ts) *)

Module Session.

Record AuthState := {
  accessToken : option string;
  refreshToken : option string;
  userEmail : option string;
}.

Definition signedOut : AuthState :=
  {| accessToken := None; refreshToken := None; userEmail := None |}.

Definition storageKey : string := "draftly.auth".

(** The text kept in [localStorage], represented by what
    [JSON.parse] followed by the read of [parsed.accessToken] makes
    of it: either the attempt throws ([Garbled], with the raw text),
    or it yields the record that [JSON.stringify] had written
    ([Encoded]). *)
Inductive StoredText :=
| Garbled (raw : string)
| Encoded (st : AuthState).

Record World := {
  authState : AuthState;                   (* the useState cell *)
  headers : gmap string string;            (* api.defaults.headers.common *)
  localStorage : gmap string StoredText;
  installed : bool;      (* api.interceptors.response holds the store's handler *)
}.

Definition setAuthState (st : AuthState) (w : World) : World :=
  {| authState := st; headers := headers w; localStorage := localStorage w;
     installed := installed w |}.

Definition setHeaders (h : gmap string string) (w : World) : World :=
  {| authState := authState w; headers := h; localStorage := localStorage w;
     installed := installed w |}.

Definition setItem (k : string) (v : StoredText) (w : World) : World :=
  {| authState := authState w; headers := headers w;
     localStorage := <[k := v]> (localStorage w);
     installed := installed w |}.

Definition removeItem (k : string) (w : World) : World :=
  {| authState := authState w; headers := headers w;
     localStorage := delete k (localStorage w);
     installed := installed w |}.

(** [api.interceptors.response.use(...)] in the effect of the provider,
    and [eject] in its clean-up. *)
Definition setInstalled (v : bool) (w : World) : World :=
  {| authState := authState w; headers := headers w;
     localStorage := localStorage w; installed := v |}.

(** lib/api.ts, [setAuthHeader] *)
Definition setAuthHeader (token : option string) (w : World) : World :=
  match token with
  | Some t =>
      if truthy_string t
      then setHeaders (<["Authorization" := "Bearer " +:+ t]> (headers w)) w
      else setHeaders (delete "Authorization" (headers w)) w
  | None => setHeaders (delete "Authorization" (headers w)) w
  end.

Abbreviation Op := (M World AxiosError).

(** The initialiser of the [useState] cell. *)
Definition initAuthState (w : World) : AuthState * World :=
  match localStorage w !! storageKey with
  | Some (Encoded parsed) => (parsed, setAuthHeader (accessToken parsed) w)
  | Some (Garbled raw) =>
      if truthy_string raw
      then (signedOut, removeItem storageKey w)
      else (signedOut, w)
  | None => (signedOut, w)
  end.

(** [useEffect(() => setAuthHeader(authState.accessToken),
    [authState.accessToken])] *)
Definition headerEffect (w : World) : World :=
  setAuthHeader (accessToken (authState w)) w.

(** The render that follows a handler: the effect runs when its
    dependency differs from the one of the previous render. *)
Definition commit (before after : World) : World :=
  if decide (accessToken (authState before) = accessToken (authState after))
  then after
  else headerEffect after.

(** The rejected-branch handler of the response interceptor.  An effect
    of the provider installs it when the provider mounts and ejects it
    when the provider unmounts ([installed]). *)
Definition onRejected {A} (error : AxiosError) : Op A :=
  (if has_status error 401
   then modify (setAuthState signedOut) ;; modify (removeItem storageKey)
   else ret tt) ;;
  throw error.

(** The rejection of a request issued in the current world.  Axios
    builds the chain of handlers of a request when the request is
    issued: the handler of the store sees the rejection when it was
    installed by then, and otherwise the rejection goes to the caller
    as it is. *)
Definition intercept {A} (error : AxiosError) : Op A :=
  do now <- gets (fun w => w);
  if installed now then onRejected error else throw error.

(** A call through [api]: the fulfilled branch is the identity. *)
Definition api_call {A} (reply : AxiosResult A) : Op A :=
  match reply with
  | Resolved data => ret data
  | RejectedWith error => intercept error
  end.

Definition persist (state : AuthState) : Op unit :=
  modify (setAuthState state) ;;
  modify (setAuthHeader (accessToken state)) ;;
  modify (setItem storageKey (Encoded state)).

(** Body of a successful reply of [POST /auth/login]. *)
Record LoginData := { access_token : string; refresh_token : option string }.

Definition login (email password : string) (reply : AxiosResult LoginData) : Op unit :=
  do data <- api_call reply;
  persist {| accessToken := Some (access_token data);
             refreshToken := refresh_token data;
             userEmail := Some email |}.

Definition register (email password : string)
    (reply : AxiosResult unit) (login_reply : AxiosResult LoginData) : Op unit :=
  api_call reply ;;
  login email password login_reply.

Definition logout : Op unit := persist signedOut.

(** *** Transitions of the session store *)

(** A handler followed by the render it causes. *)
Definition handle (op : Op unit) (w : World) : World :=
  commit w (exec op w).

(** The common default headers of an axios instance just created. *)
Definition axios_common : gmap string string :=
  {[ "Accept" := "application/json, text/plain, */*" ]}.

(** The first render of a page load: the module state of lib/api.ts is
    fresh and the initialiser of the provider has run; no effect has
    run yet, and no interceptor is installed. *)
Definition boot (disk : gmap string StoredText) : World :=
  let w0 := {| authState := signedOut; headers := axios_common;
               localStorage := disk; installed := false |} in
  let '(st, w1) := initAuthState w0 in
  setAuthState st w1.

(** The effects of the provider at mount, in the order of the source:
    the header effect, then the installation of the interceptor.  React
    runs them after the mount effects of the pages rendered below the
    provider. *)
Definition providerEffects (w : World) : World :=
  setInstalled true (headerEffect w).

(** Page load, once the effects of the provider have run. *)
Definition mount (disk : gmap string StoredText) : World :=
  providerEffects (boot disk).

Inductive Event :=
| Reload
| Login (email password : string) (reply : AxiosResult LoginData)
| Register (email password : string)
    (reply : AxiosResult unit) (login_reply : AxiosResult LoginData)
| Logout
| Rejection (error : AxiosError)
    (* a request of a page, issued in the current world, rejected *)
| LoadRejection (error : AxiosError).
    (* a request that a page issued from its mount effect during the
       page load, before the effects of the provider: rejected, with no
       handler of the store in its chain *)

Definition step (ev : Event) (w : World) : World :=
  match ev with
  | Reload => mount (localStorage w)
  | Login email password reply => handle (login email password reply) w
  | Register email password reply login_reply =>
      handle (register email password reply login_reply) w
  | Logout => handle logout w
  | Rejection error => handle (@intercept unit error) w
  | LoadRejection error => handle (throw error) w
  end.

Definition run (evs : list Event) (w : World) : World :=
  fold_left (fun w ev => step ev w) evs w.

(** A browser that has never run the application. *)
Definition fresh : World := mount ∅.

(** The pairing of the credential. *)
Definition paired (st : AuthState) : Prop :=
  is_Some (accessToken st) <-> is_Some (userEmail st).

Definition cleared (w : World) : Prop :=
  authState w = signedOut /\ localStorage w !! storageKey = None.

(** What the transitions of the store maintain: the credential is
    paired, a record on disk that parses is paired, and the default
    headers are those of axios with at most the authorization header
    added. *)
Definition stored_paired (disk : gmap string StoredText) : Prop :=
  forall st, disk !! storageKey = Some (Encoded st) -> paired st.

Definition only_authorization (h : gmap string string) : Prop :=
  delete "Authorization" h = axios_common.

Definition consistent (w : World) : Prop :=
  paired (authState w) /\ stored_paired (localStorage w)
  /\ only_authorization (headers w).

(** A signed-in session, used in examples. *)
Definition alice : AuthState :=
  {| accessToken := Some "tok-1"; refreshToken := Some "ref-1";
     userEmail := Some "alice@example.org" |}.

Definition alice_token : LoginData :=
  {| access_token := "tok-1"; refresh_token := Some "ref-1" |}.

Definition alice_world : World :=
  step (Login "alice@example.org" "secret" (Resolved alice_token)) fresh.

End Session.

(** ** Wire format and shared types (types/index.ts) *)

Inductive JsonValue :=
| JNull
| JBool (b : bool)
| JInt (n : Z)
| JDec (mantissa : Z) (decimals : nat)     (* 0.7 is [JDec 7 1] *)
| JStr (s : string).

Inductive Method := GET | POST | PUT.

Record Request := {
  method : Method;
  url : string;
  params : list (string * JsonValue);      (* query string *)
  body : list (string * JsonValue);        (* JSON object, in key order *)
}.

(** An [Error]-like object caught by [catch (err: any)]. *)
Record JsError := { message : option string }.

Module Types.

Inductive DocumentType := doc_docx | doc_pptx.

Record Project := {
  p_id : string;
  p_title : string;
  doc_type : DocumentType;
  topic_prompt : option string;
  user_id : string;
  p_created_at : string;
  p_updated_at : option string;
  section_count : option Z;
}.

Record ProjectListResponse := {
  p_items : option (list Project);
  p_total : Z;
  p_page : Z;
  p_size : Z;
}.

Record SectionT := {
  id : string;
  project_id : string;
  title : string;
  content : string;
  idx : Z;
  initial_generated : bool;
  revision_count : Z;
  comment_count : Z;
  created_at : string;
  updated_at : option string;
}.

Record SectionListResponse := {
  items : option (list SectionT);
  total : Z;
  page : Z;
  size : Z;
}.

End Types.

(** ** Project detail page (pages/ProjectDetailPage.tsx) *)

Module Detail.
Export Types.

Inductive ExportFormat := docx | pptx | txt.

Definition format_name (f : ExportFormat) : string :=
  match f with
  | docx => "docx"
  | pptx => "pptx"
  | txt => "txt"
  end.

Definition Blob := list Byte.byte.

(** The object URL that [window.URL.createObjectURL] hands out. *)
Inductive ObjectURL := object_url (blob : Blob).

(** Observable actions of a handler, in the order they happen. *)
Inductive IO :=
| Api (req : Request)                                      (* api.get/post/put *)
| Fetch (target : string) (hdrs : list (string * string))  (* window.fetch *)
| CreateObjectURL (blob : Blob)
| LinkClick (href : ObjectURL) (download : string)
| RevokeObjectURL (u : ObjectURL).

(** The [useState] cells of the component, the trace of its actions,
    and the session store and transport it runs under ([world]): the
    page imports the same [api] instance as the provider. *)
Record Page := {
  project : option Project;
  sections : list SectionT;
  loading : bool;
  error : option string;
  savingSection : bool;
  selectedSection : option SectionT;
  refinePrompt : string;
  generatePrompt : string;
  llmBusy : bool;
  exporting : bool;
  exportFormat : ExportFormat;
  io : list IO;
  world : Session.World;
}.

Definition initial : Page :=
  {| project := None; sections := []; loading := true; error := None;
     savingSection := false; selectedSection := None; refinePrompt := "";
     generatePrompt := ""; llmBusy := false; exporting := false;
     exportFormat := docx; io := []; world := Session.fresh |}.

Definition setSections (v : list SectionT) (p : Page) : Page :=
  {| project := project p; sections := v; loading := loading p;
     error := error p; savingSection := savingSection p;
     selectedSection := selectedSection p; refinePrompt := refinePrompt p;
     generatePrompt := generatePrompt p; llmBusy := llmBusy p;
     exporting := exporting p; exportFormat := exportFormat p; io := io p;
     world := world p |}.

Definition setLoading (v : bool) (p : Page) : Page :=
  {| project := project p; sections := sections p; loading := v;
     error := error p; savingSection := savingSection p;
     selectedSection := selectedSection p; refinePrompt := refinePrompt p;
     generatePrompt := generatePrompt p; llmBusy := llmBusy p;
     exporting := exporting p; exportFormat := exportFormat p; io := io p;
     world := world p |}.

Definition setError (v : option string) (p : Page) : Page :=
  {| project := project p; sections := sections p; loading := loading p;
     error := v; savingSection := savingSection p;
     selectedSection := selectedSection p; refinePrompt := refinePrompt p;
     generatePrompt := generatePrompt p; llmBusy := llmBusy p;
     exporting := exporting p; exportFormat := exportFormat p; io := io p;
     world := world p |}.

Definition setSavingSection (v : bool) (p : Page) : Page :=
  {| project := project p; sections := sections p; loading := loading p;
     error := error p; savingSection := v;
     selectedSection := selectedSection p; refinePrompt := refinePrompt p;
     generatePrompt := generatePrompt p; llmBusy := llmBusy p;
     exporting := exporting p; exportFormat := exportFormat p; io := io p;
     world := world p |}.

Definition setSelectedSection (v : option SectionT) (p : Page) : Page :=
  {| project := project p; sections := sections p; loading := loading p;
     error := error p; savingSection := savingSection p;
     selectedSection := v; refinePrompt := refinePrompt p;
     generatePrompt := generatePrompt p; llmBusy := llmBusy p;
     exporting := exporting p; exportFormat := exportFormat p; io := io p;
     world := world p |}.

Definition setRefinePrompt (v : string) (p : Page) : Page :=
  {| project := project p; sections := sections p; loading := loading p;
     error := error p; savingSection := savingSection p;
     selectedSection := selectedSection p; refinePrompt := v;
     generatePrompt := generatePrompt p; llmBusy := llmBusy p;
     exporting := exporting p; exportFormat := exportFormat p; io := io p;
     world := world p |}.

Definition setLlmBusy (v : bool) (p : Page) : Page :=
  {| project := project p; sections := sections p; loading := loading p;
     error := error p; savingSection := savingSection p;
     selectedSection := selectedSection p; refinePrompt := refinePrompt p;
     generatePrompt := generatePrompt p; llmBusy := v;
     exporting := exporting p; exportFormat := exportFormat p; io := io p;
     world := world p |}.

Definition setExporting (v : bool) (p : Page) : Page :=
  {| project := project p; sections := sections p; loading := loading p;
     error := error p; savingSection := savingSection p;
     selectedSection := selectedSection p; refinePrompt := refinePrompt p;
     generatePrompt := generatePrompt p; llmBusy := llmBusy p;
     exporting := v; exportFormat := exportFormat p; io := io p;
     world := world p |}.

Definition emit (a : IO) (p : Page) : Page :=
  {| project := project p; sections := sections p; loading := loading p;
     error := error p; savingSection := savingSection p;
     selectedSection := selectedSection p; refinePrompt := refinePrompt p;
     generatePrompt := generatePrompt p; llmBusy := llmBusy p;
     exporting := exporting p; exportFormat := exportFormat p;
     io := io p ++ [a]; world := world p |}.

Definition setWorld (w : Session.World) (p : Page) : Page :=
  {| project := project p; sections := sections p; loading := loading p;
     error := error p; savingSection := savingSection p;
     selectedSection := selectedSection p; refinePrompt := refinePrompt p;
     generatePrompt := generatePrompt p; llmBusy := llmBusy p;
     exporting := exporting p; exportFormat := exportFormat p;
     io := io p; world := w |}.

Abbreviation Handler := (M Page AxiosError).

(** An operation of the transport, run from a handler of the page. *)
Definition via_transport {A} (op : Session.Op A) : Handler A :=
  fun p => match op (world p) with
           | (r, w) => (r, setWorld w p)
           end.

(** A call through [api]: the request goes out, and the reply passes
    through the chain that the request was given when it was issued
    before it resolves or rejects the awaited promise; the fulfilled
    branch of the interceptor is the identity. *)
Definition api_request {A} (req : Request) (reply : AxiosResult A) : Handler A :=
  modify (emit (Api req)) ;;
  match reply with
  | Resolved data => ret data
  | RejectedWith error => via_transport (Session.intercept error)
  end.

(** The page once the rejection [error] of a request issued from it has
    passed through the chain of the request. *)
Definition intercepted (error : AxiosError) (p : Page) : Page :=
  setWorld (exec (@Session.intercept unit error) (world p)) p.


(** [if (!projectId) return;] followed by the rest of the handler. *)
Definition with_projectId {E} (projectId : option string)
    (k : string -> M Page E unit) : M Page E unit :=
  match projectId with
  | Some pid => if truthy_string pid then k pid else ret tt
  | None => ret tt
  end.

(** *** Selection reconciliation: the effect on [sections] *)

Definition same_id (p s : SectionT) : bool := String.eqb (id s) (id p).

Definition reconcile (secs : list SectionT) (prev : option SectionT)
    : option SectionT :=
  if Nat.eqb (length secs) 0 then None
  else match prev with
       | None => secs !! 0%nat
       | Some p =>
           match find (same_id p) secs with
           | Some updated => Some updated
           | None => secs !! 0%nat
           end
       end.

Definition selectionEffect : Handler unit :=
  modify (fun p => setSelectedSection (reconcile (sections p) (selectedSection p)) p).

(** *** fetchSections *)

Definition sections_request (pid : string) : Request :=
  {| method := GET;
     url := "/projects/" +:+ pid +:+ "/sections/";
     params := [("limit", JInt 100)];
     body := [] |}.

Definition fetchSections (projectId : option string)
    (reply : AxiosResult SectionListResponse) : Handler unit :=
  with_projectId projectId (fun pid =>
    modify (setLoading true) ;;
    modify (setError None) ;;
    finally
      (try_catch
         (do data <- api_request (sections_request pid) reply;
          modify (setSections (default [] (items data))) ;;
          selectionEffect)
         (fun err =>
            modify (setError (Some (detail_or err "Unable to load sections")))))
      (modify (setLoading false))).

(** *** handleSectionUpdate *)

Definition update_request (pid : string) (section : SectionT) : Request :=
  {| method := PUT;
     url := "/projects/" +:+ pid +:+ "/sections/" +:+ id section;
     params := [];
     body := [("title", JStr (title section));
              ("content", JStr (content section))] |}.

Definition handleSectionUpdate (projectId : option string) (section : SectionT)
    (reply : AxiosResult unit) (list_reply : AxiosResult SectionListResponse)
    : Handler unit :=
  with_projectId projectId (fun pid =>
    modify (setSavingSection true) ;;
    finally
      (try_catch
         (api_request (update_request pid section) reply ;;
          fetchSections projectId list_reply)
         (fun err =>
            modify (setError (Some (detail_or err "Unable to update section")))))
      (modify (setSavingSection false))).

(** *** handleRefine *)

Definition refine_request (pid : string) (selected : SectionT)
    (instruction : string) : Request :=
  {| method := POST;
     url := "/projects/" +:+ pid +:+ "/sections/" +:+ id selected +:+ "/refine/";
     params := [];
     body := [("refine_instruction", JStr instruction);
              ("prompt", JStr (content selected));
              ("preserve_formatting", JBool true);
              ("temperature", JDec 6 1);
              ("max_tokens", JInt 800)] |}.

(** The part of the [try] block up to and including
    [setSelectedSection(data)]. *)
Definition refine_call (pid : string) (selected : SectionT)
    (instruction : string) (reply : AxiosResult SectionT) : Handler unit :=
  do data <- api_request (refine_request pid selected instruction) reply;
  modify (setSelectedSection (Some data)).

Definition handleRefine (projectId : option string)
    (reply : AxiosResult SectionT) (list_reply : AxiosResult SectionListResponse)
    : Handler unit :=
  do now <- gets (fun p => p);
  match selectedSection now with
  | Some selected =>
      with_projectId projectId (fun pid =>
        modify (setLlmBusy true) ;;
        modify (setError None) ;;
        finally
          (try_catch
             (refine_call pid selected (refinePrompt now) reply ;;
              fetchSections projectId list_reply ;;
              modify (setRefinePrompt ""))
             (fun err =>
                modify (setError (Some (detail_or err "Unable to refine content")))))
          (modify (setLlmBusy false)))
  | None => ret tt
  end.

(** *** handleExport *)

(** What [fetch] and [response.blob()] deliver: the promise of [fetch]
    rejects when no response arrives; otherwise the response has a
    status, and reading its body gives the bytes or fails. *)
Inductive FetchReply :=
| NetworkError (e : JsError)
| Responded (code : Z) (payload : JsError + Blob).

(** [response.ok] *)
Definition response_ok (code : Z) : bool := Z.leb 200 code && Z.leb code 299.

Definition export_url (base : option string) (pid : string) (f : ExportFormat)
    : string :=
  default "http://127.0.0.1:8000" base
    +:+ "/projects/" +:+ pid +:+ "/export/?format=" +:+ format_name f.

(** [api.defaults.headers.common.Authorization], when it is a string. *)
Definition authorization (w : Session.World) : option string :=
  Session.headers w !! "Authorization".

Definition export_headers (authHeader : option string) : list (string * string) :=
  match authHeader with
  | Some h => if truthy_string h then [("Authorization", h)] else []
  | None => []
  end.

Definition download_name (proj : option Project) (f : ExportFormat) : string :=
  match proj with
  | Some p => p_title p
  | None => "document"
  end +:+ "." +:+ format_name f.

Definition save_as (blob : Blob) (name : string) : M Page JsError unit :=
  modify (emit (CreateObjectURL blob)) ;;
  modify (emit (LinkClick (object_url blob) name)) ;;
  modify (emit (RevokeObjectURL (object_url blob))).

(** [base] is [import.meta.env.VITE_API_URL].  The request goes out
    through [fetch], not through [api]. *)
Definition handleExport (projectId : option string) (base : option string)
    (reply : FetchReply) : M Page JsError unit :=
  do now <- gets (fun p => p);
  with_projectId projectId (fun pid =>
    modify (setExporting true) ;;
    modify (setError None) ;;
    finally
      (try_catch
         (modify (emit (Fetch (export_url base pid (exportFormat now))
                              (export_headers (authorization (world now))))) ;;
          match reply with
          | NetworkError e => throw e
          | Responded code payload =>
              if response_ok code then
                match payload with
                | inr blob =>
                    save_as blob (download_name (project now) (exportFormat now))
                | inl e => throw e
                end
              else throw {| message := Some "Export failed" |}
          end)
         (fun err =>
            modify (setError (Some (default "Unable to download export" (message err))))))
      (modify (setExporting false))).

(** Actions of a trace that save a file. *)
Definition is_save (a : IO) : bool :=
  match a with
  | CreateObjectURL _ | LinkClick _ _ | RevokeObjectURL _ => true
  | Api _ | Fetch _ _ => false
  end.

(** Sections and pages used in examples. *)
Definition sample (i t c : string) (position revisions : Z) : SectionT :=
  {| id := i; project_id := "p1"; title := t; content := c; idx := position;
     initial_generated := false; revision_count := revisions;
     comment_count := 0; created_at := "2025-01-01T00:00:00";
     updated_at := None |}.

Definition secA : SectionT := sample "a" "Introduction" "Opening." 0 1.
Definition secB : SectionT := sample "b" "Market" "Figures." 1 1.
Definition secC : SectionT := sample "c" "Outlook" "Forecast." 2 1.

(** The buffer of C after an edit that has not been saved. *)
Definition secC_edited : SectionT := sample "c" "Outlook" "Forecast, revised by hand." 2 1.

(** The copy of C that the server returns after a refinement. *)
Definition secC_refined : SectionT := sample "c" "Outlook" "A refined forecast." 2 2.

Definition editing : Page :=
  {| project := None; sections := [secA; secB; secC]; loading := false;
     error := None; savingSection := false;
     selectedSection := Some secC_edited; refinePrompt := "Make it formal";
     generatePrompt := ""; llmBusy := false; exporting := false;
     exportFormat := docx; io := []; world := Session.alice_world |}.

End Detail.

(** ** Projects page (pages/ProjectsPage.tsx) *)

Module Projects.
Export Types.

(** The [generator] cell: the fields of the generation form. *)
Record Generator := {
  projectId : string;
  num_sections : Z;
  include_outline : bool;
  outline_format : string;
}.

Record Page := {
  projects : list Project;
  loading : bool;
  error : option string;
  generator : Generator;
  generating : bool;
  io : list Request;                       (* requests sent through api *)
  world : Session.World;                   (* session store and transport *)
}.

Definition initial : Page :=
  {| projects := []; loading := true; error := None;
     generator := {| projectId := ""; num_sections := 5;
                     include_outline := true; outline_format := "" |};
     generating := false; io := []; world := Session.fresh |}.

Definition setProjects (v : list Project) (p : Page) : Page :=
  {| projects := v; loading := loading p; error := error p;
     generator := generator p; generating := generating p; io := io p;
     world := world p |}.

Definition setLoading (v : bool) (p : Page) : Page :=
  {| projects := projects p; loading := v; error := error p;
     generator := generator p; generating := generating p; io := io p;
     world := world p |}.

Definition setError (v : option string) (p : Page) : Page :=
  {| projects := projects p; loading := loading p; error := v;
     generator := generator p; generating := generating p; io := io p;
     world := world p |}.

Definition setGenerator (v : Generator) (p : Page) : Page :=
  {| projects := projects p; loading := loading p; error := error p;
     generator := v; generating := generating p; io := io p;
     world := world p |}.

Definition setGenerating (v : bool) (p : Page) : Page :=
  {| projects := projects p; loading := loading p; error := error p;
     generator := generator p; generating := v; io := io p;
     world := world p |}.

Definition emit (req : Request) (p : Page) : Page :=
  {| projects := projects p; loading := loading p; error := error p;
     generator := generator p; generating := generating p;
     io := io p ++ [req]; world := world p |}.

Definition setWorld (w : Session.World) (p : Page) : Page :=
  {| projects := projects p; loading := loading p; error := error p;
     generator := generator p; generating := generating p; io := io p;
     world := w |}.

Abbreviation Handler := (M Page AxiosError).

Definition via_transport {A} (op : Session.Op A) : Handler A :=
  fun p => match op (world p) with
           | (r, w) => (r, setWorld w p)
           end.

Definition api_request {A} (req : Request) (reply : AxiosResult A) : Handler A :=
  modify (emit req) ;;
  match reply with
  | Resolved data => ret data
  | RejectedWith error => via_transport (Session.intercept error)
  end.

Definition intercepted (error : AxiosError) (p : Page) : Page :=
  setWorld (exec (@Session.intercept unit error) (world p)) p.

Definition projects_request : Request :=
  {| method := GET; url := "/projects/";
     params := [("limit", JInt 50)]; body := [] |}.

Definition fetchProjects (reply : AxiosResult ProjectListResponse) : Handler unit :=
  modify (setLoading true) ;;
  modify (setError None) ;;
  finally
    (try_catch
       (do data <- api_request projects_request reply;
        modify (setProjects (default [] (p_items data))))
       (fun err =>
          modify (setError (Some (detail_or err "Unable to load projects")))))
    (modify (setLoading false)).

(** [text || null] *)
Definition or_null (text : string) : JsonValue :=
  if truthy_string text then JStr text else JNull.

Definition generate_request (g : Generator) : Request :=
  {| method := POST;
     url := "/projects/" +:+ projectId g +:+ "/generate";
     params := [];
     body := [("num_sections", JInt (num_sections g));
              ("include_outline", JBool (include_outline g));
              ("outline_format", or_null (outline_format g))] |}.

(** The [onSubmit] handler of the generation form. *)
Definition handleGenerate (reply : AxiosResult unit)
    (list_reply : AxiosResult ProjectListResponse) : Handler unit :=
  do now <- gets (fun p => p);
  let g := generator now in
  if truthy_string (projectId g) then
    modify (setGenerating true) ;;
    modify (setError None) ;;
    finally
      (try_catch
         (api_request (generate_request g) reply ;;
          fetchProjects list_reply)
         (fun err =>
            modify (setError (Some (detail_or err "Unable to generate content")))))
      (modify (setGenerating false))
  else modify (setError (Some "Select a project first")).

(** The [onChange] handler of the number input:
    [num_sections: Number(e.target.value)]. *)
Definition typeNumSections (n : Z) : Handler unit :=
  modify (fun p =>
    setGenerator {| projectId := projectId (generator p);
                    num_sections := n;
                    include_outline := include_outline (generator p);
                    outline_format := outline_format (generator p) |} p).

(** *** Submission of the generation form

    The form is rendered without [noValidate], so the browser checks
    the constraints declared on its controls before it dispatches
    [submit], and dispatches nothing when one fails:
    the project [select] is [required], and the number input carries
    [min={1}] and [max={20}].  The submit button is [disabled] while
    [generating] holds. *)

Definition required_ok (value : string) : bool := truthy_string value.

Definition range_ok (min max value : Z) : bool :=
  Z.leb min value && Z.leb value max.

Definition checkValidity (g : Generator) : bool :=
  required_ok (projectId g) && range_ok 1 20 (num_sections g).

Definition submitGenerateForm (reply : AxiosResult unit)
    (list_reply : AxiosResult ProjectListResponse) : Handler unit :=
  do now <- gets (fun p => p);
  if generating now then ret tt
  else if checkValidity (generator now) then handleGenerate reply list_reply
  else ret tt.

(** The form with project [p1] selected and [n] typed into the number
    input, used in examples. *)
Definition form_with (n : Z) : Page :=
  exec (typeNumSections n)
    (setGenerator {| projectId := "p1"; num_sections := 5;
                     include_outline := true; outline_format := "" |}
       (setLoading false initial)).

End Projects.

(** ** Session store: what a settled world looks like *)

Module SessionMore.
Import Session.

(** The value [setAuthHeader] leaves under [Authorization]. *)
Definition bearer (token : option string) : option string :=
  match token with
  | Some t => if truthy_string t then Some ("Bearer " +:+ t) else None
  | None => None
  end.

(** Between two events the transport and the storage mirror the
    credential: the authorization header is the one of the access
    token, and the record on disk is the credential in memory, or is
    absent while nobody is signed in. *)
Definition header_synced (w : World) : Prop :=
  headers w !! "Authorization" = bearer (accessToken (authState w)).

Definition storage_mirrors (w : World) : Prop :=
  localStorage w !! storageKey = Some (Encoded (authState w))
  \/ (localStorage w !! storageKey = None /\ authState w = signedOut).

Definition settled (w : World) : Prop :=
  only_authorization (headers w) /\ header_synced w /\ storage_mirrors w
  /\ installed w = true.

End SessionMore.

(** ** Route guards (layouts/AuthLayout.tsx, layouts/DashboardLayout.tsx)
    and the route table (App.tsx) *)

Module Routing.
Import Session.

(** The places of the route table.  [Elsewhere] stands for every path
    that only the [*] route matches. *)
Inductive Location :=
| LoginPath                                (* /login *)
| RegisterPath                             (* /register *)
| RootPath                                 (* / *)
| ProjectsPath                             (* /projects *)
| ProjectPath (projectId : string)         (* /projects/:projectId *)
| Elsewhere (path : string).

Inductive Screen :=
| LoginScreen
| RegisterScreen
| ProjectsScreen
| ProjectDetailScreen (projectId : string).

(** What an element renders: a [<Navigate replace>] or a screen. *)
Inductive Rendered :=
| Navigate (to : Location)
| Show (screen : Screen).

(** [AuthLayout]: a signed-in visitor is sent to [/projects]. *)
Definition AuthLayout (w : World) (outlet : Rendered) : Rendered :=
  if truthy (accessToken (authState w)) then Navigate ProjectsPath else outlet.

(** [DashboardLayout]: a visitor without a token is sent to [/login]. *)
Definition DashboardLayout (w : World) (outlet : Rendered) : Rendered :=
  if negb (truthy (accessToken (authState w))) then Navigate LoginPath else outlet.

(** The [<Routes>] of [App]. *)
Definition App (w : World) (at_ : Location) : Rendered :=
  match at_ with
  | LoginPath => AuthLayout w (Show LoginScreen)
  | RegisterPath => AuthLayout w (Show RegisterScreen)
  | RootPath => DashboardLayout w (Navigate ProjectsPath)
  | ProjectsPath => DashboardLayout w (Show ProjectsScreen)
  | ProjectPath projectId => DashboardLayout w (Show (ProjectDetailScreen projectId))
  | Elsewhere _ => Navigate ProjectsPath
  end.

(** Following the redirects, at most [fuel] of them. *)
Fixpoint settle (fuel : nat) (w : World) (at_ : Location) : option Screen :=
  match App w at_ with
  | Show screen => Some screen
  | Navigate to =>
      match fuel with
      | O => None
      | S fuel' => settle fuel' w to
      end
  end.

Definition public (screen : Screen) : bool :=
  match screen with
  | LoginScreen | RegisterScreen => true
  | ProjectsScreen | ProjectDetailScreen _ => false
  end.

End Routing.

(** ** The rest of the project detail page *)

Module DetailMore.
Import Detail.

Definition setProject (v : option Project) (p : Page) : Page :=
  {| project := v; sections := sections p; loading := loading p;
     error := error p; savingSection := savingSection p;
     selectedSection := selectedSection p; refinePrompt := refinePrompt p;
     generatePrompt := generatePrompt p; llmBusy := llmBusy p;
     exporting := exporting p; exportFormat := exportFormat p; io := io p;
     world := world p |}.

(** *** fetchProject *)

Definition project_request (pid : string) : Request :=
  {| method := GET; url := "/projects/" +:+ pid; params := []; body := [] |}.

Definition fetchProject (projectId : option string)
    (reply : AxiosResult Project) : Handler unit :=
  with_projectId projectId (fun pid =>
    try_catch
      (do data <- api_request (project_request pid) reply;
       modify (setProject (Some data)))
      (fun err =>
         modify (setError (Some (detail_or err "Unable to load project"))))).

(** *** handleGenerate *)

(** [generatePrompt || selectedSection.title] *)
Definition prompt_or_title (generatePrompt : string) (selected : SectionT) : string :=
  if truthy_string generatePrompt then generatePrompt else title selected.

Definition generate_request (pid : string) (selected : SectionT)
    (generatePrompt : string) : Request :=
  {| method := POST;
     url := "/projects/" +:+ pid +:+ "/sections/" +:+ id selected
              +:+ "/refine/generate";
     params := [];
     body := [("prompt", JStr (prompt_or_title generatePrompt selected));
              ("temperature", JDec 7 1);
              ("max_tokens", JInt 800)] |}.

Definition handleGenerate (projectId : option string)
    (reply : AxiosResult SectionT) (list_reply : AxiosResult SectionListResponse)
    : Handler unit :=
  do now <- gets (fun p => p);
  match selectedSection now with
  | Some selected =>
      with_projectId projectId (fun pid =>
        modify (setLlmBusy true) ;;
        modify (setError None) ;;
        finally
          (try_catch
             (do data <- api_request
                           (generate_request pid selected (generatePrompt now)) reply;
              modify (setSelectedSection (Some data)) ;;
              fetchSections projectId list_reply)
             (fun err =>
                modify (setError (Some (detail_or err "Unable to generate content")))))
          (modify (setLlmBusy false)))
  | None => ret tt
  end.

(** *** The editor: list buttons, inputs and the Save button *)

(** [{ ...prev, title: value }] *)
Definition with_title (value : string) (prev : SectionT) : SectionT :=
  {| id := id prev; project_id := project_id prev; title := value;
     content := content prev; idx := idx prev;
     initial_generated := initial_generated prev;
     revision_count := revision_count prev;
     comment_count := comment_count prev; created_at := created_at prev;
     updated_at := updated_at prev |}.

(** [{ ...prev, content: value }] *)
Definition with_content (value : string) (prev : SectionT) : SectionT :=
  {| id := id prev; project_id := project_id prev; title := title prev;
     content := value; idx := idx prev;
     initial_generated := initial_generated prev;
     revision_count := revision_count prev;
     comment_count := comment_count prev; created_at := created_at prev;
     updated_at := updated_at prev |}.

(** [setSelectedSection((prev) => prev ? f(prev) : prev)] *)
Definition updateSelected (f : SectionT -> SectionT) : Handler unit :=
  modify (fun p =>
    setSelectedSection
      (match selectedSection p with
       | Some prev => Some (f prev)
       | None => None
       end) p).

Definition typeTitle (value : string) : Handler unit :=
  updateSelected (with_title value).

Definition typeContent (value : string) : Handler unit :=
  updateSelected (with_content value).

(** The button of a list entry: [onClick={() => setSelectedSection(section)}] *)
Definition clickSection (section : SectionT) : Handler unit :=
  modify (setSelectedSection (Some section)).

(** The Save button: [disabled={savingSection}], and
    [onClick={() => selectedSection && handleSectionUpdate(selectedSection)}]. *)
Definition clickSave (projectId : option string)
    (reply : AxiosResult unit) (list_reply : AxiosResult SectionListResponse)
    : Handler unit :=
  do now <- gets (fun p => p);
  if savingSection now then ret tt
  else match selectedSection now with
       | Some selected => handleSectionUpdate projectId selected reply list_reply
       | None => ret tt
       end.

(** A page of sections as the server lists them, used in examples. *)
Definition listing (secs : list SectionT) : SectionListResponse :=
  {| items := Some secs; total := Z.of_nat (length secs); page := 1; size := 100 |}.

Definition no_items : SectionListResponse :=
  {| items := None; total := 0; page := 1; size := 100 |}.

(** *** The form that adds a manual section *)

Record SectionForm := {
  form_title : string;
  form_content : string;
  form_idx : Z;
}.

Definition emptySection : SectionForm :=
  {| form_title := ""; form_content := ""; form_idx := 0 |}.

(** The page together with its [sectionForm] cell. *)
Record Editor := {
  page : Page;
  sectionForm : SectionForm;
}.

Definition setPage (p : Page) (e : Editor) : Editor :=
  {| page := p; sectionForm := sectionForm e |}.

Definition setSectionForm (f : SectionForm) (e : Editor) : Editor :=
  {| page := page e; sectionForm := f |}.

(** A handler of the page, run on the page of the editor. *)
Definition on_page {A} (h : Handler A) : M Editor AxiosError A :=
  fun e => match h (page e) with
           | (r, p) => (r, setPage p e)
           end.

Definition create_request (pid : string) (f : SectionForm) : Request :=
  {| method := POST;
     url := "/projects/" +:+ pid +:+ "/sections/";
     params := [];
     body := [("title", JStr (form_title f));
              ("content", JStr (form_content f));
              ("idx", JInt (form_idx f))] |}.

Definition handleSectionCreate (projectId : option string)
    (reply : AxiosResult unit) (list_reply : AxiosResult SectionListResponse)
    : M Editor AxiosError unit :=
  do now <- gets (fun e => e);
  match projectId with
  | Some pid =>
      if truthy_string pid then
        on_page (modify (setSavingSection true)) ;;
        finally
          (try_catch
             (on_page (api_request (create_request pid (sectionForm now)) reply) ;;
              modify (setSectionForm emptySection) ;;
              on_page (fetchSections projectId list_reply))
             (fun err =>
                on_page (modify (setError
                  (Some (detail_or err "Unable to create section"))))))
          (on_page (modify (setSavingSection false)))
      else ret tt
  | None => ret tt
  end.

(** Submission of the form: the title input is [required], the number
    input carries [min={0}], and the submit button is [disabled] while
    [savingSection] holds; the browser dispatches [submit] only when the
    constraints hold. *)
Definition sectionFormValid (f : SectionForm) : bool :=
  truthy_string (form_title f) && Z.leb 0 (form_idx f).

Definition submitSectionForm (projectId : option string)
    (reply : AxiosResult unit) (list_reply : AxiosResult SectionListResponse)
    : M Editor AxiosError unit :=
  do now <- gets (fun e => e);
  if savingSection (page now) then ret tt
  else if sectionFormValid (sectionForm now)
       then handleSectionCreate projectId reply list_reply
       else ret tt.

(** The new part of a trace. *)
Definition added (before after : Page) : list IO :=
  drop (length (io before)) (io after).

End DetailMore.

(** ** The rest of the projects page *)

Module ProjectsMore.
Import Projects.

(** The [form] cell: the fields of the creation form. *)
Record ProjectForm := {
  form_title : string;
  form_doc_type : string;
  form_topic_prompt : string;
}.

Definition defaultProjectForm : ProjectForm :=
  {| form_title := ""; form_doc_type := "docx"; form_topic_prompt := "" |}.

(** The page together with the cells of the creation form. *)
Record Dashboard := {
  page : Page;
  form : ProjectForm;
  creating : bool;
}.

Definition setPage (p : Page) (d : Dashboard) : Dashboard :=
  {| page := p; form := form d; creating := creating d |}.

Definition setForm (f : ProjectForm) (d : Dashboard) : Dashboard :=
  {| page := page d; form := f; creating := creating d |}.

Definition setCreating (v : bool) (d : Dashboard) : Dashboard :=
  {| page := page d; form := form d; creating := v |}.

Definition on_page {A} (h : Handler A) : M Dashboard AxiosError A :=
  fun d => match h (page d) with
           | (r, p) => (r, setPage p d)
           end.

Definition create_request (f : ProjectForm) : Request :=
  {| method := POST; url := "/projects/"; params := [];
     body := [("title", JStr (form_title f));
              ("doc_type", JStr (form_doc_type f));
              ("topic_prompt", or_null (form_topic_prompt f))] |}.

Definition handleCreate (reply : AxiosResult unit)
    (list_reply : AxiosResult ProjectListResponse) : M Dashboard AxiosError unit :=
  do now <- gets (fun d => d);
  modify (setCreating true) ;;
  finally
    (try_catch
       (on_page (api_request (create_request (form now)) reply) ;;
        modify (setForm defaultProjectForm) ;;
        on_page (fetchProjects list_reply))
       (fun err =>
          on_page (modify (setError
            (Some (detail_or err "Unable to create project"))))))
    (modify (setCreating false)).

(** Submission of the creation form: the title input is [required] and
    the submit button is [disabled] while [creating] holds. *)
Definition submitCreateForm (reply : AxiosResult unit)
    (list_reply : AxiosResult ProjectListResponse) : M Dashboard AxiosError unit :=
  do now <- gets (fun d => d);
  if creating now then ret tt
  else if required_ok (form_title (form now))
       then handleCreate reply list_reply
       else ret tt.

(** *** The search box *)

(** [haystack.includes(needle)] *)
Fixpoint includes (needle haystack : string) : bool :=
  if String.prefix needle haystack then true
  else match haystack with
       | EmptyString => false
       | String _ rest => includes needle rest
       end.

Section Search.
(** [String.prototype.toLowerCase], which follows the Unicode case
    tables, is left as it is in the language. *)
Variable toLowerCase : string -> string.

Definition matches (search : string) (project : Project) : bool :=
  includes (toLowerCase search) (toLowerCase (p_title project)).

Definition filteredProjects (search : string) (projects : list Project)
    : list Project :=
  if truthy_string search then List.filter (matches search) projects
  else projects.
End Search.

End ProjectsMore.

(** ** Sign-in and registration pages (pages/LoginPage.tsx,
    pages/RegisterPage.tsx) *)

Module AuthPages.

(** What a page asks of its surroundings, in order. *)
Inductive Call :=
| CallLogin (email password : string)        (* login of the context *)
| CallRegister (email password : string)     (* register of the context *)
| CallNavigate (to : string).                (* navigate(to, { replace: true }) *)

(** The cells of [LoginPage], the calls it made, and the session store. *)
Record LoginPage := {
  email : string;
  password : string;
  loading : bool;
  error : option string;
  calls : list Call;
  world : Session.World;
}.

Definition setLoading (v : bool) (p : LoginPage) : LoginPage :=
  {| email := email p; password := password p; loading := v;
     error := error p; calls := calls p; world := world p |}.

Definition setError (v : option string) (p : LoginPage) : LoginPage :=
  {| email := email p; password := password p; loading := loading p;
     error := v; calls := calls p; world := world p |}.

Definition call (c : Call) (p : LoginPage) : LoginPage :=
  {| email := email p; password := password p; loading := loading p;
     error := error p; calls := calls p ++ [c]; world := world p |}.

Definition setWorld (w : Session.World) (p : LoginPage) : LoginPage :=
  {| email := email p; password := password p; loading := loading p;
     error := error p; calls := calls p; world := w |}.

Definition in_session {A} (op : Session.Op A) : M LoginPage AxiosError A :=
  fun p => match op (world p) with
           | (r, w) => (r, setWorld w p)
           end.

(** [handleSubmit] of [LoginPage]; [redirect] is
    [params.get("redirect")]. *)
Definition loginSubmit (redirect : option string)
    (reply : AxiosResult Session.LoginData) : M LoginPage AxiosError unit :=
  do now <- gets (fun p => p);
  modify (setLoading true) ;;
  modify (setError None) ;;
  finally
    (try_catch
       (modify (call (CallLogin (email now) (password now))) ;;
        in_session (Session.login (email now) (password now) reply) ;;
        modify (call (CallNavigate (default "/projects" redirect))))
       (fun err =>
          modify (setError (Some (detail_or err "Unable to login")))))
    (modify (setLoading false)).

(** The cells of [RegisterPage]: those it has in common with
    [LoginPage], and the confirmation of the password. *)
Record RegisterPage := {
  form : LoginPage;
  confirmPassword : string;
}.

Definition on_form {A} (h : M LoginPage AxiosError A) : M RegisterPage AxiosError A :=
  fun r => match h (form r) with
           | (x, f) => (x, {| form := f; confirmPassword := confirmPassword r |})
           end.

(** [handleSubmit] of [RegisterPage]. *)
Definition registerSubmit (reply : AxiosResult unit)
    (login_reply : AxiosResult Session.LoginData) : M RegisterPage AxiosError unit :=
  do now <- gets (fun r => r);
  if negb (String.eqb (password (form now)) (confirmPassword now)) then
    on_form (modify (setError (Some "Passwords do not match")))
  else
    on_form
      (modify (setLoading true) ;;
       modify (setError None) ;;
       finally
         (try_catch
            (modify (call (CallRegister (email (form now)) (password (form now)))) ;;
             in_session (Session.register (email (form now)) (password (form now))
                           reply login_reply) ;;
             modify (call (CallNavigate "/projects")))
            (fun err =>
               modify (setError (Some (detail_or err "Unable to register")))))
         (modify (setLoading false))).

End AuthPages.

(** * Properties of the session store *)

Module SessionFacts.
Import Session.

Lemma world_eq (w1 w2 : World) :
  authState w1 = authState w2 -> headers w1 = headers w2 ->
  localStorage w1 = localStorage w2 -> installed w1 = installed w2 -> w1 = w2.
Proof. destruct w1, w2; simpl; intros; subst; reflexivity. Qed.

Lemma setAuthHeader_installed token w :
  installed (setAuthHeader token w) = installed w.
Proof. unfold setAuthHeader; destruct token as [t|]; [destruct (truthy_string t)|]; reflexivity. Qed.

Lemma only_authorization_insert v h :
  only_authorization h -> only_authorization (<["Authorization" := v]> h).
Proof. unfold only_authorization. intros H. rewrite delete_insert_eq. exact H. Qed.

Lemma only_authorization_delete h :
  only_authorization h -> only_authorization (delete "Authorization" h).
Proof. unfold only_authorization. intros H. rewrite delete_delete_eq. exact H. Qed.

Lemma only_authorization_axios : only_authorization axios_common.
Proof.
  unfold only_authorization, axios_common.
  apply delete_id, lookup_singleton_ne. discriminate.
Qed.

Lemma only_authorization_set v h :
  only_authorization h ->
  <["Authorization" := v]> h = <["Authorization" := v]> axios_common.
Proof.
  unfold only_authorization. intros <-. rewrite insert_delete_eq. reflexivity.
Qed.

Lemma setAuthHeader_authState token w :
  authState (setAuthHeader token w) = authState w.
Proof. unfold setAuthHeader; destruct token as [t|]; [destruct (truthy_string t)|]; reflexivity. Qed.

Lemma setAuthHeader_localStorage token w :
  localStorage (setAuthHeader token w) = localStorage w.
Proof. unfold setAuthHeader; destruct token as [t|]; [destruct (truthy_string t)|]; reflexivity. Qed.

Lemma setAuthHeader_headers token w :
  headers (setAuthHeader token w) =
  if truthy token
  then <["Authorization" := "Bearer " +:+ default "" token]> (headers w)
  else delete "Authorization" (headers w).
Proof. unfold setAuthHeader; destruct token as [t|]; [simpl; destruct (truthy_string t)|]; reflexivity. Qed.

(** Applying the same token twice is the same as applying it once. *)
Lemma setAuthHeader_twice token w :
  setAuthHeader token (setAuthHeader token w) = setAuthHeader token w.
Proof.
  apply world_eq.
  - rewrite !setAuthHeader_authState; reflexivity.
  - rewrite !setAuthHeader_headers. destruct (truthy token).
    + apply insert_insert_eq.
    + apply delete_delete_eq.
  - rewrite !setAuthHeader_localStorage; reflexivity.
  - rewrite !setAuthHeader_installed; reflexivity.
Qed.

Lemma exec_persist st w :
  exec (persist st) w =
  setItem storageKey (Encoded st) (setAuthHeader (accessToken st) (setAuthState st w)).
Proof. reflexivity. Qed.

Lemma outcome_persist st w : outcome (persist st) w = inr tt.
Proof. reflexivity. Qed.

Lemma headerEffect_persist st w :
  headerEffect (exec (persist st) w) = exec (persist st) w.
Proof.
  rewrite exec_persist. unfold headerEffect.
  destruct st as [[t|] r u]; [destruct (truthy_string t) eqn:Ht|];
    unfold setAuthHeader; simpl; rewrite ?Ht; simpl; rewrite ?Ht;
    apply world_eq; simpl;
    first [reflexivity | apply insert_insert_eq | apply delete_delete_eq].
Qed.

(** The render after [persist] leaves the world as [persist] made it. *)
Lemma handle_persist st w : handle (persist st) w = exec (persist st) w.
Proof.
  unfold handle, commit. case_decide; [reflexivity|apply headerEffect_persist].
Qed.

Example alice_world_signed_in :
  authState alice_world = alice
  /\ headers alice_world !! "Authorization" = Some "Bearer tok-1"
  /\ localStorage alice_world !! storageKey = Some (Encoded alice).
Proof. vm_compute. auto. Qed.

Lemma step_logout w :
  step Logout w =
  setItem storageKey (Encoded signedOut)
    (setHeaders (delete "Authorization" (headers w)) (setAuthState signedOut w)).
Proof. unfold step, logout. rewrite handle_persist. reflexivity. Qed.

(** C5, as the specification words it, fails: after [logout] the
    storage still holds a record under the fixed key. *)
Lemma logout_record_remains :
  ~ (let w' := step Logout alice_world in
     authState w' = signedOut
     /\ headers w' !! "Authorization" = None
     /\ localStorage w' !! storageKey = None).
Proof.
  rewrite step_logout. simpl. intros (_ & _ & H).
  rewrite lookup_insert_eq in H. discriminate H.
Qed.

(** C5 (amended): [logout] sets the credential to all-null, clears the
    authorization header of the transport, and overwrites the persisted
    record under the fixed key with the all-null credential; the key
    stays present, and a reload reads the record back as a signed-out
    session without an authorization header. *)
Theorem logout_overwrites_record (w : World) :
  let w' := step Logout w in
  outcome logout w = inr tt
  /\ authState w' = signedOut
  /\ headers w' !! "Authorization" = None
  /\ localStorage w' !! storageKey = Some (Encoded signedOut)
  /\ authState (step Reload w') = signedOut
  /\ headers (step Reload w') = axios_common.
Proof.
  cbv zeta. rewrite step_logout. simpl. repeat split.
  - apply lookup_delete_eq.
  - apply lookup_insert_eq.
  - unfold mount, providerEffects, boot, initAuthState. simpl. rewrite lookup_insert_eq. reflexivity.
  - unfold mount, providerEffects, boot, initAuthState. simpl. rewrite lookup_insert_eq. simpl.
    rewrite !only_authorization_axios. reflexivity.
Qed.

(** C6: [logout] is idempotent.  From every world, a second [logout]
    leaves the credential, the headers and the storage exactly as the
    first one left them, the credential is all-null, and neither call
    raises. *)
Theorem logout_idempotent (w : World) :
  step Logout (step Logout w) = step Logout w
  /\ exec logout (exec logout w) = exec logout w
  /\ authState (step Logout w) = signedOut
  /\ outcome logout w = inr tt
  /\ outcome logout (step Logout w) = inr tt.
Proof.
  assert (Hstep : step Logout (step Logout w) = step Logout w).
  { rewrite !step_logout. apply world_eq; simpl.
    - reflexivity.
    - apply delete_delete_eq.
    - apply insert_insert_eq.
    - reflexivity. }
  repeat split; try assumption.
  - unfold logout. rewrite <- !handle_persist. exact Hstep.
  - rewrite step_logout. reflexivity.
Qed.

(** *** Authorization failures *)

Lemma exec_onRejected {A} (error : AxiosError) (w : World) :
  exec (@onRejected A error) w =
  if has_status error 401
  then removeItem storageKey (setAuthState signedOut w)
  else w.
Proof. unfold onRejected, exec, bind. destruct (has_status error 401); reflexivity. Qed.

Lemma outcome_onRejected {A} (error : AxiosError) (w : World) :
  outcome (@onRejected A error) w = inl error.
Proof. unfold onRejected, outcome, bind. destruct (has_status error 401); reflexivity. Qed.

Lemma cleared_invalidate w : cleared (removeItem storageKey (setAuthState signedOut w)).
Proof. split; simpl; [reflexivity | apply lookup_delete_eq]. Qed.

Lemma cleared_commit before after : cleared after -> cleared (commit before after).
Proof.
  unfold commit, headerEffect, cleared. case_decide; [tauto|].
  rewrite setAuthHeader_authState, setAuthHeader_localStorage. tauto.
Qed.

Lemma exec_intercept {A} (error : AxiosError) (w : World) :
  exec (@intercept A error) w =
  if installed w then exec (@onRejected A error) w else w.
Proof. unfold intercept, exec, bind, gets. destruct (installed w); reflexivity. Qed.

Lemma outcome_intercept {A} (error : AxiosError) (w : World) :
  outcome (@intercept A error) w = inl error.
Proof.
  unfold intercept, outcome, bind, gets.
  destruct (installed w); [apply outcome_onRejected|reflexivity].
Qed.

Lemma run_intercept {A} (error : AxiosError) (w : World) :
  @intercept A error w = (inl error, exec (@intercept unit error) w).
Proof.
  unfold intercept, exec, bind, gets, onRejected, modify, throw.
  destruct (installed w); [destruct (has_status error 401)|]; reflexivity.
Qed.

Lemma exec_login_rejected email password error w :
  exec (login email password (RejectedWith error)) w = exec (@intercept unit error) w.
Proof.
  unfold login, api_call, exec at 1, bind. rewrite run_intercept. reflexivity.
Qed.

Lemma exec_api_call_rejected {A} error w :
  exec (@api_call A (RejectedWith error)) w = exec (@intercept A error) w.
Proof. reflexivity. Qed.

Lemma cleared_onRejected {A} error w :
  has_status error 401 = true -> cleared (exec (@onRejected A error) w).
Proof. intros H. rewrite exec_onRejected, H. apply cleared_invalidate. Qed.

(** *** The pairing invariant *)

Lemma paired_signedOut : paired signedOut.
Proof. unfold paired; simpl. split; intros [x Hx]; discriminate Hx. Qed.

Lemma consistent_setAuthHeader token w :
  consistent w -> consistent (setAuthHeader token w).
Proof.
  intros (Hp & Hs & Hh). unfold consistent.
  rewrite setAuthHeader_authState, setAuthHeader_localStorage, setAuthHeader_headers.
  split_and!; try assumption.
  destruct (truthy token);
    [apply only_authorization_insert | apply only_authorization_delete]; assumption.
Qed.

Lemma consistent_commit before after :
  consistent after -> consistent (commit before after).
Proof.
  intros H. unfold commit, headerEffect. case_decide; [assumption|].
  apply consistent_setAuthHeader, H.
Qed.

Lemma consistent_persist st w :
  paired st -> consistent w -> consistent (exec (persist st) w).
Proof.
  intros Hst (Hp & Hs & Hh). rewrite exec_persist.
  unfold consistent; simpl.
  rewrite setAuthHeader_authState, setAuthHeader_headers; simpl.
  split_and!.
  - assumption.
  - intros st' Hl. rewrite lookup_insert_eq in Hl. congruence.
  - destruct (truthy (accessToken st));
      [apply only_authorization_insert | apply only_authorization_delete]; assumption.
Qed.

Lemma consistent_onRejected {A} error w :
  consistent w -> consistent (exec (@onRejected A error) w).
Proof.
  intros (Hp & Hs & Hh). rewrite exec_onRejected.
  destruct (has_status error 401); [|split_and!; assumption].
  split_and!; simpl.
  - apply paired_signedOut.
  - intros st Hl. rewrite lookup_delete_eq in Hl. discriminate Hl.
  - assumption.
Qed.

Lemma paired_login email (data : LoginData) :
  paired {| accessToken := Some (access_token data);
            refreshToken := refresh_token data;
            userEmail := Some email |}.
Proof. unfold paired; simpl. split; intros _; eexists; reflexivity. Qed.

Lemma consistent_intercept {A} error w :
  consistent w -> consistent (exec (@intercept A error) w).
Proof.
  intros H. rewrite exec_intercept.
  destruct (installed w); [apply consistent_onRejected, H | exact H].
Qed.

Lemma consistent_login email password reply w :
  consistent w -> consistent (exec (login email password reply) w).
Proof.
  intros H. destruct reply as [data|error].
  - apply (consistent_persist _ w (paired_login email data) H).
  - rewrite exec_login_rejected. apply consistent_intercept, H.
Qed.

Lemma exec_register_resolved email password login_reply w :
  exec (register email password (Resolved tt) login_reply) w
  = exec (login email password login_reply) w.
Proof. reflexivity. Qed.

Lemma exec_register_rejected email password error login_reply w :
  exec (register email password (RejectedWith error) login_reply) w
  = exec (@intercept unit error) w.
Proof.
  unfold register, api_call, exec at 1, bind. rewrite run_intercept. reflexivity.
Qed.

Lemma consistent_mount disk : stored_paired disk -> consistent (mount disk).
Proof.
  intros Hd. unfold mount, providerEffects, boot, initAuthState; simpl.
  destruct (disk !! storageKey) as [[raw|parsed]|] eqn:Hl.
  - destruct (truthy_string raw).
    + apply consistent_setAuthHeader. split_and!; simpl.
      * apply paired_signedOut.
      * intros st Hst. rewrite lookup_delete_eq in Hst. discriminate Hst.
      * apply only_authorization_axios.
    + apply consistent_setAuthHeader. split_and!; simpl.
      * apply paired_signedOut.
      * assumption.
      * apply only_authorization_axios.
  - apply consistent_setAuthHeader.
    unfold consistent. simpl.
    rewrite setAuthHeader_localStorage, setAuthHeader_headers. simpl.
    split_and!.
    + apply Hd, Hl.
    + assumption.
    + destruct (truthy (accessToken parsed));
        [apply only_authorization_insert | apply only_authorization_delete];
        apply only_authorization_axios.
  - apply consistent_setAuthHeader. split_and!; simpl.
    + apply paired_signedOut.
    + assumption.
    + apply only_authorization_axios.
Qed.

Lemma consistent_step ev w : consistent w -> consistent (step ev w).
Proof.
  intros H. destruct ev as [|email password reply
                            |email password reply login_reply| |error|error]; simpl.
  - apply consistent_mount. apply H.
  - apply consistent_commit, consistent_login, H.
  - apply consistent_commit. destruct reply as [[]|error].
    + rewrite exec_register_resolved. apply consistent_login, H.
    + rewrite exec_register_rejected. apply consistent_intercept, H.
  - apply consistent_commit, consistent_persist; [apply paired_signedOut|apply H].
  - apply consistent_commit, consistent_intercept, H.
  - apply consistent_commit, H.
Qed.

Lemma consistent_run evs : forall w, consistent w -> consistent (run evs w).
Proof.
  unfold run. induction evs as [|ev evs IH]; intros w H; simpl.
  - assumption.
  - apply IH, consistent_step, H.
Qed.

Lemma consistent_fresh : consistent fresh.
Proof.
  apply consistent_mount. intros st Hl. rewrite lookup_empty in Hl. discriminate Hl.
Qed.

Lemma truthy_string_nonempty s : s <> "" -> truthy_string s = true.
Proof. intros H. unfold truthy_string. apply negb_true_iff, String.eqb_neq, H. Qed.

(** A successful login on a world whose default headers hold at most
    the authorization header. *)
Lemma login_resolved email password data w :
  only_authorization (headers w) ->
  access_token data <> "" ->
  let w' := step (Login email password (Resolved data)) w in
  authState w' = {| accessToken := Some (access_token data);
                    refreshToken := refresh_token data;
                    userEmail := Some email |}
  /\ headers w'
     = <["Authorization" := "Bearer " +:+ access_token data]> axios_common
  /\ localStorage w' !! storageKey = Some (Encoded (authState w')).
Proof.
  intros Hh Htok. cbv zeta. unfold step.
  change (login email password (Resolved data))
    with (persist {| accessToken := Some (access_token data);
                     refreshToken := refresh_token data;
                     userEmail := Some email |}).
  rewrite handle_persist, exec_persist. simpl.
  rewrite (truthy_string_nonempty _ Htok). simpl.
  split_and!.
  - reflexivity.
  - apply only_authorization_set, Hh.
  - apply lookup_insert_eq.
Qed.

(** The initialiser takes the parsed record as it is: the pairing of
    the credential after a page load is the pairing of the record that
    [persist] wrote.  A record placed under the key by other means is
    not validated. *)
Remark mount_trusts_record :
  let edited := {| accessToken := Some "tok-1"; refreshToken := None;
                   userEmail := None |} in
  authState (mount {[ storageKey := Encoded edited ]}) = edited.
Proof.
  cbv zeta. unfold mount, providerEffects, boot, initAuthState. simpl.
  rewrite lookup_singleton_eq. reflexivity.
Qed.

(** C2: the pairing invariant of the credential (access token and user
    identity both present or both absent) holds after every sequence of
    transitions of the session store from a browser with empty
    storage: page loads that initialise from storage, logins that
    succeed or fail, registrations, logouts and rejected requests, those
    answered with 401 included; the same holds from any storage whose
    record under the key is absent, unparseable or paired.  After a login that succeeds with a
    non-empty token, the access token and the identity are both
    present, and the default headers of the transport are those of
    axios with the one entry [Authorization: Bearer <token>] added,
    which the header effect of the next render leaves as it is. *)
Theorem credential_pairing_invariant (evs : list Event) :
  let w := run evs fresh in
  paired (authState w)
  /\ (forall disk, stored_paired disk -> paired (authState (run evs (mount disk))))
  /\ forall email password data,
       access_token data <> "" ->
       let w' := step (Login email password (Resolved data)) w in
       is_Some (accessToken (authState w'))
       /\ is_Some (userEmail (authState w'))
       /\ paired (authState w')
       /\ accessToken (authState w') = Some (access_token data)
       /\ userEmail (authState w') = Some email
       /\ headers w' !! "Authorization" = Some ("Bearer " +:+ access_token data)
       /\ headers w'
          = <["Authorization" := "Bearer " +:+ access_token data]> axios_common
       /\ headerEffect w' = w'.
Proof.
  cbv zeta.
  pose proof (consistent_run evs fresh consistent_fresh) as (Hp & Hs & Hh).
  split; [exact Hp|]. split.
  { intros disk Hd.
    exact (proj1 (consistent_run evs (mount disk) (consistent_mount disk Hd))). }
  intros email password data Htok.
  destruct (login_resolved email password data _ Hh Htok) as (Hst & Hhd & _).
  cbv zeta in Hst, Hhd.
  rewrite Hst, Hhd. simpl. split_and!.
  - eexists; reflexivity.
  - eexists; reflexivity.
  - apply paired_login.
  - reflexivity.
  - reflexivity.
  - apply lookup_insert_eq.
  - reflexivity.
  - unfold step.
    change (login email password (Resolved data))
      with (persist {| accessToken := Some (access_token data);
                       refreshToken := refresh_token data;
                       userEmail := Some email |}).
    rewrite handle_persist. apply headerEffect_persist.
Qed.

Lemma credential_pairing_invariant_witness :
  let data := {| access_token := "tok-2"; refresh_token := None |} in
  let evs := [Login "bob@example.org" "guess" (RejectedWith (http_error 401 None));
              Login "bob@example.org" "secret" (Resolved data);
              Reload; Logout; Reload] in
  let disk : gmap string StoredText := {[ storageKey := Garbled "{oops" ]} in
  (access_token data <> ""
   /\ headers (step (Login "bob@example.org" "secret" (Resolved data)) (run evs fresh))
        !! "Authorization" = Some "Bearer tok-2")
  /\ (stored_paired disk /\ paired (authState (run evs (mount disk)))).
Proof.
  cbv zeta.
  pose proof (credential_pairing_invariant
                [Login "bob@example.org" "guess" (RejectedWith (http_error 401 None));
                 Login "bob@example.org" "secret"
                   (Resolved {| access_token := "tok-2"; refresh_token := None |});
                 Reload; Logout; Reload]) as (_ & Hdisk & Hlogin).
  assert (Hd : stored_paired {[ storageKey := Garbled "{oops" ]}).
  { intros st H. rewrite lookup_singleton_eq in H. discriminate H. }
  split; split.
  - discriminate.
  - apply (Hlogin "bob@example.org" "secret"
             {| access_token := "tok-2"; refresh_token := None |}).
    discriminate.
  - exact Hd.
  - exact (Hdisk _ Hd).
Defined.

End SessionFacts.

(** * Reading the state at the start of a handler *)

Lemma exec_gets_bind {S E A B} (f : S -> A) (k : A -> M S E B) (s : S) :
  exec (bind (gets f) k) s = exec (k (f s)) s.
Proof. reflexivity. Qed.

Lemma outcome_gets_bind {S E A B} (f : S -> A) (k : A -> M S E B) (s : S) :
  outcome (bind (gets f) k) s = outcome (k (f s)) s.
Proof. reflexivity. Qed.

(** * Properties of the project detail page *)

Module DetailFacts.
Import Detail.

(** *** Selection reconciliation *)

Lemma same_id_true p s : same_id p s = true <-> id s = id p.
Proof. unfold same_id. apply String.eqb_eq. Qed.

Lemma same_id_false p s : same_id p s = false <-> id s <> id p.
Proof. unfold same_id. apply String.eqb_neq. Qed.

(** [Array.prototype.find] returns the first element that satisfies
    the predicate. *)
Lemma find_first {A} (f : A -> bool) (l : list A) (x : A) :
  find f l = Some x ->
  exists before after,
    l = before ++ x :: after /\ f x = true /\ Forall (fun y => f y = false) before.
Proof.
  induction l as [|a l IH]; simpl; [discriminate|].
  destruct (f a) eqn:Ha.
  - intros [= ->]. exists [], l. auto.
  - intros H. destruct (IH H) as (before & after & -> & Hx & Hb).
    exists (a :: before), after. auto.
Qed.

Lemma find_absent {A} (f : A -> bool) (l : list A) :
  find f l = None <-> Forall (fun y => f y = false) l.
Proof.
  induction l as [|a l IH]; simpl.
  - split; auto.
  - destruct (f a) eqn:Ha.
    + split; [discriminate|]. intros H. inversion H; congruence.
    + rewrite IH. split; [auto|]. intros H. inversion H; assumption.
Qed.

Lemma reconcile_nil prev : reconcile [] prev = None.
Proof. reflexivity. Qed.

Lemma reconcile_cons first rest prev :
  reconcile (first :: rest) prev =
  match prev with
  | None => Some first
  | Some p => Some (default first (find (same_id p) (first :: rest)))
  end.
Proof.
  unfold reconcile. simpl length. simpl Nat.eqb. cbv iota.
  destruct prev as [p|]; [|reflexivity].
  destruct (find (same_id p) (first :: rest)); reflexivity.
Qed.

Lemma reconcile_elem secs prev :
  match reconcile secs prev with
  | Some s => s ∈ secs
  | None => secs = []
  end.
Proof.
  destruct secs as [|first rest]; [reflexivity|].
  rewrite reconcile_cons. destruct prev as [p|]; [|apply list_elem_of_here].
  destruct (find (same_id p) (first :: rest)) as [u|] eqn:Hf; simpl.
  - apply find_some in Hf. apply list_elem_of_In, Hf.
  - apply list_elem_of_here.
Qed.

(** C3: selection is retained across a refresh of the section list by
    id.  If the id of the previously selected section occurs in the
    refreshed list, the selection becomes the first entry of the new
    list with that id, a fresh copy; if it does not occur, the selection
    is the first element of the new list; and if the new list is empty
    the selection is null.  With [A;B;C] and C selected, a reload that
    returns [A;B] selects A. *)
Theorem selection_retained (secs : list SectionT) (prev : SectionT) :
  ((exists x, x ∈ secs /\ id x = id prev) ->
     exists before fresh after,
       secs = before ++ fresh :: after
       /\ id fresh = id prev
       /\ Forall (fun y => id y <> id prev) before
       /\ reconcile secs (Some prev) = Some fresh)
  /\ ((forall x, x ∈ secs -> id x <> id prev) ->
        reconcile secs (Some prev) = head secs)
  /\ (secs = [] -> reconcile secs (Some prev) = None)
  /\ (forall A B, id A <> id prev -> id B <> id prev ->
        reconcile [A; B] (Some prev) = Some A).
Proof.
  assert (Habsent : forall l, (forall x, x ∈ l -> id x <> id prev) ->
                              reconcile l (Some prev) = head l).
  { intros l Hall. destruct l as [|first rest]; [reflexivity|].
    rewrite reconcile_cons.
    assert (Hf : find (same_id prev) (first :: rest) = None).
    { apply find_absent, Forall_forall. intros y Hy.
      apply same_id_false, Hall, Hy. }
    rewrite Hf. reflexivity. }
  split_and!.
  - intros (x & Hx & Hid).
    destruct secs as [|first rest]; [inversion Hx|].
    rewrite reconcile_cons.
    destruct (find (same_id prev) (first :: rest)) as [u|] eqn:Hf.
    + destruct (find_first _ _ _ Hf) as (before & after & Hl & Hu & Hb).
      exists before, u, after. split_and!.
      * exact Hl.
      * apply same_id_true, Hu.
      * eapply Forall_impl; [exact Hb|]. intros y Hy. apply same_id_false, Hy.
      * reflexivity.
    + exfalso. apply find_absent in Hf.
      rewrite Forall_forall in Hf. specialize (Hf x Hx).
      apply same_id_false in Hf. contradiction.
  - apply Habsent.
  - intros ->. reflexivity.
  - intros A B HA HB. apply (Habsent [A; B]).
    intros x Hx. apply list_elem_of_In in Hx. simpl in Hx.
    destruct Hx as [<-|[<-|[]]]; assumption.
Qed.

Lemma selection_retained_witness :
  ((exists x, x ∈ [secA; secB; secC_refined] /\ id x = id secC_edited)
   /\ exists before fresh after,
        [secA; secB; secC_refined] = before ++ fresh :: after
        /\ id fresh = id secC_edited
        /\ Forall (fun y => id y <> id secC_edited) before
        /\ reconcile [secA; secB; secC_refined] (Some secC_edited) = Some fresh)
  /\ ((forall x, x ∈ [secA; secB] -> id x <> id secC) /\
      reconcile [secA; secB] (Some secC) = Some secA).
Proof.
  assert (H1 : exists x, x ∈ [secA; secB; secC_refined] /\ id x = id secC_edited).
  { exists secC_refined. split; [|reflexivity].
    apply list_elem_of_In. simpl. auto. }
  assert (H2 : forall x, x ∈ [secA; secB] -> id x <> id secC).
  { intros x Hx. apply list_elem_of_In in Hx. simpl in Hx.
    destruct Hx as [<-|[<-|[]]]; discriminate. }
  split; split.
  - exact H1.
  - exact (proj1 (selection_retained [secA; secB; secC_refined] secC_edited) H1).
  - exact H2.
  - exact (proj1 (proj2 (selection_retained [secA; secB] secC)) H2).
Defined.

(** C10: once the reconciliation effect has run on a section list, the
    local edit buffer is null exactly when the list is empty; for a
    list that is not empty the buffer holds an element of that list. *)
Theorem selected_iff_nonempty (secs : list SectionT) (prev : option SectionT)
    (p : Page) :
  (reconcile secs prev = None <-> secs = [])
  /\ match reconcile secs prev with
     | Some s => s ∈ secs
     | None => secs = []
     end
  /\ (let p' := exec selectionEffect p in
      sections p' = sections p
      /\ (selectedSection p' = None <-> sections p' = [])
      /\ match selectedSection p' with
         | Some s => s ∈ sections p'
         | None => sections p' = []
         end).
Proof.
  assert (Hiff : forall l o, reconcile l o = None <-> l = []).
  { intros l o. pose proof (reconcile_elem l o) as H.
    destruct (reconcile l o) as [s|] eqn:Hr.
    - split; [discriminate|]. intros ->. inversion H.
    - split; [intros _; exact H | reflexivity]. }
  split; [apply Hiff | split; [apply reconcile_elem|]].
  cbv zeta. split; [reflexivity | split].
  - apply (Hiff (sections p) (selectedSection p)).
  - apply (reconcile_elem (sections p) (selectedSection p)).
Qed.

(** *** Handlers, run on a page *)

Lemma with_projectId_truthy {E} pid (k : string -> M Page E unit) :
  truthy_string pid = true -> with_projectId (Some pid) k = k pid.
Proof. intros H. unfold with_projectId. rewrite H. reflexivity. Qed.

Lemma exec_fetchSections_resolved pid data p :
  truthy_string pid = true ->
  exec (fetchSections (Some pid) (Resolved data)) p =
  setLoading false
    (setSelectedSection
       (reconcile (default [] (items data)) (selectedSection p))
       (setSections (default [] (items data))
          (emit (Api (sections_request pid))
             (setError None (setLoading true p))))).
Proof.
  intros H. unfold fetchSections. rewrite (with_projectId_truthy _ _ H).
  reflexivity.
Qed.

Lemma run_api_rejected {A} (req : Request) (err : AxiosError) (p : Page) :
  @api_request A req (RejectedWith err) p
  = (inl err, intercepted err (emit (Api req) p)).
Proof.
  unfold api_request, intercepted, via_transport, bind, modify. cbv beta iota.
  rewrite SessionFacts.run_intercept. reflexivity.
Qed.

Ltac run_rejected :=
  unfold exec, outcome, bind, finally, try_catch, modify; cbv beta iota;
  rewrite run_api_rejected; reflexivity.

Lemma exec_fetchSections_rejected pid err p :
  truthy_string pid = true ->
  exec (fetchSections (Some pid) (RejectedWith err)) p =
  setLoading false
    (setError (Some (detail_or err "Unable to load sections"))
       (intercepted err
          (emit (Api (sections_request pid))
             (setError None (setLoading true p))))).
Proof.
  intros H. unfold fetchSections. rewrite (with_projectId_truthy _ _ H).
  run_rejected.
Qed.

Lemma outcome_fetchSections projectId reply p :
  outcome (fetchSections projectId reply) p = inr tt.
Proof.
  unfold fetchSections, with_projectId.
  destruct projectId as [pid|]; [destruct (truthy_string pid)|];
    try reflexivity.
  destruct reply as [data|err]; [reflexivity|]. run_rejected.
Qed.

(** [fetchSections] catches what it throws: it always returns. *)
Lemma run_fetchSections projectId reply p :
  fetchSections projectId reply p = (inr tt, exec (fetchSections projectId reply) p).
Proof.
  pose proof (outcome_fetchSections projectId reply p) as H.
  unfold outcome, exec in *.
  destruct (fetchSections projectId reply p) as [r p']. simpl in *.
  rewrite H. reflexivity.
Qed.

Lemma io_fetchSections pid reply p :
  truthy_string pid = true ->
  io (exec (fetchSections (Some pid) reply) p) = io p ++ [Api (sections_request pid)].
Proof.
  intros H. destruct reply.
  - rewrite exec_fetchSections_resolved by exact H. reflexivity.
  - rewrite exec_fetchSections_rejected by exact H. reflexivity.
Qed.

(** *** Saving a section *)

Lemma exec_handleSectionUpdate_resolved pid section list_reply p :
  truthy_string pid = true ->
  exec (handleSectionUpdate (Some pid) section (Resolved tt) list_reply) p =
  setSavingSection false
    (exec (fetchSections (Some pid) list_reply)
       (emit (Api (update_request pid section)) (setSavingSection true p))).
Proof.
  intros H. unfold handleSectionUpdate. rewrite (with_projectId_truthy _ _ H).
  unfold api_request.
  unfold exec at 1, bind, finally, try_catch, modify, ret.
  cbv beta iota. rewrite run_fetchSections. reflexivity.
Qed.

Lemma exec_handleSectionUpdate_rejected pid section err list_reply p :
  truthy_string pid = true ->
  exec (handleSectionUpdate (Some pid) section (RejectedWith err) list_reply) p =
  setSavingSection false
    (setError (Some (detail_or err "Unable to update section"))
       (intercepted err
          (emit (Api (update_request pid section)) (setSavingSection true p)))).
Proof.
  intros H. unfold handleSectionUpdate. rewrite (with_projectId_truthy _ _ H).
  run_rejected.
Qed.

(** C9: the request that saves a section carries a body made of the
    two fields [title] and [content] of the section and nothing else.
    The handler sends that request first and, when it succeeds, the
    request that reloads the list; two sections with the same id, title
    and content, whatever their [idx], [revision_count],
    [initial_generated] and other fields, make the handler do exactly
    the same. *)
Theorem update_sends_title_content
    (pid : string) (section : SectionT) (reply : AxiosResult unit)
    (list_reply : AxiosResult SectionListResponse) (p : Page) :
  truthy_string pid = true ->
  let p' := exec (handleSectionUpdate (Some pid) section reply list_reply) p in
  method (update_request pid section) = PUT
  /\ body (update_request pid section)
     = [("title", JStr (title section)); ("content", JStr (content section))]
  /\ params (update_request pid section) = []
  /\ io p' = io p ++ Api (update_request pid section)
                  :: match reply with
                     | Resolved _ => [Api (sections_request pid)]
                     | RejectedWith _ => []
                     end
  /\ forall other : SectionT,
       id other = id section -> title other = title section ->
       content other = content section ->
       exec (handleSectionUpdate (Some pid) other reply list_reply) p = p'.
Proof.
  intros H. cbv zeta. split_and!; try reflexivity.
  - destruct reply as [[]|err].
    + rewrite exec_handleSectionUpdate_resolved by exact H.
      change (io (setSavingSection false ?x)) with (io x).
      rewrite io_fetchSections by exact H. simpl.
      rewrite <- app_assoc. reflexivity.
    + rewrite exec_handleSectionUpdate_rejected by exact H. reflexivity.
  - intros other Hid Ht Hc. unfold handleSectionUpdate.
    assert (Hreq : update_request pid other = update_request pid section).
    { unfold update_request. rewrite Hid, Ht, Hc. reflexivity. }
    rewrite !(with_projectId_truthy _ _ H), Hreq. reflexivity.
Qed.

Lemma update_sends_title_content_witness :
  truthy_string "p1" = true
  /\ body (update_request "p1" secC_edited)
     = [("title", JStr "Outlook"); ("content", JStr "Forecast, revised by hand.")].
Proof.
  split; [reflexivity|].
  apply (update_sends_title_content "p1" secC_edited (Resolved tt)
           (Resolved {| items := Some [secA; secB; secC_edited];
                        total := 3; page := 1; size := 100 |}) editing).
  reflexivity.
Defined.

(** *** Refining a section *)

Lemma exec_handleRefine_resolved pid buffer data list_reply p :
  truthy_string pid = true ->
  selectedSection p = Some buffer ->
  exec (handleRefine (Some pid) (Resolved data) list_reply) p =
  setLlmBusy false
    (setRefinePrompt ""
       (exec (fetchSections (Some pid) list_reply)
          (exec (refine_call pid buffer (refinePrompt p) (Resolved data))
             (setError None (setLlmBusy true p))))).
Proof.
  intros H Hsel. unfold handleRefine. rewrite exec_gets_bind, Hsel.
  rewrite (with_projectId_truthy _ _ H).
  unfold refine_call, api_request.
  unfold exec at 1, bind, finally, try_catch, modify, ret.
  cbv beta iota. rewrite run_fetchSections. reflexivity.
Qed.

Lemma exec_handleRefine_rejected pid buffer err list_reply p :
  truthy_string pid = true ->
  selectedSection p = Some buffer ->
  exec (handleRefine (Some pid) (RejectedWith err) list_reply) p =
  setLlmBusy false
    (setError (Some (detail_or err "Unable to refine content"))
       (intercepted err
          (emit (Api (refine_request pid buffer (refinePrompt p)))
             (setError None (setLlmBusy true p))))).
Proof.
  intros H Hsel. unfold handleRefine. rewrite exec_gets_bind, Hsel.
  rewrite (with_projectId_truthy _ _ H).
  unfold refine_call. run_rejected.
Qed.

(** C7: the refine request carries the content of the local edit
    buffer as its [prompt] and the refine instruction typed by the
    user, whatever the section list holds.  When the request succeeds
    the returned section is stored as the buffer, the list is
    reloaded, and the instruction input is cleared; the buffer at the
    end is the returned section, reconciled by id against the reloaded
    list when the reload succeeds. *)
Theorem refine_sends_buffer
    (pid : string) (buffer : SectionT) (reply : AxiosResult SectionT)
    (list_reply : AxiosResult SectionListResponse) (p : Page) :
  truthy_string pid = true ->
  selectedSection p = Some buffer ->
  let request := refine_request pid buffer (refinePrompt p) in
  let p' := exec (handleRefine (Some pid) reply list_reply) p in
  body request
    = [("refine_instruction", JStr (refinePrompt p));
       ("prompt", JStr (content buffer));
       ("preserve_formatting", JBool true);
       ("temperature", JDec 6 1);
       ("max_tokens", JInt 800)]
  /\ io p' = io p ++ Api request
                  :: match reply with
                     | Resolved _ => [Api (sections_request pid)]
                     | RejectedWith _ => []
                     end
  /\ llmBusy p' = false
  /\ forall data, reply = Resolved data ->
       let called := exec (refine_call pid buffer (refinePrompt p) reply)
                          (setError None (setLlmBusy true p)) in
       selectedSection called = Some data
       /\ p' = setLlmBusy false
                 (setRefinePrompt ""
                    (exec (fetchSections (Some pid) list_reply) called))
       /\ refinePrompt p' = ""
       /\ selectedSection p'
          = match list_reply with
            | Resolved l => reconcile (default [] (items l)) (Some data)
            | RejectedWith _ => Some data
            end.
Proof.
  intros H Hsel. cbv zeta. split_and!.
  - reflexivity.
  - destruct reply as [data|err].
    + rewrite (exec_handleRefine_resolved pid buffer) by assumption.
      change (io (setLlmBusy false (setRefinePrompt "" ?x))) with (io x).
      rewrite io_fetchSections by exact H. simpl.
      rewrite <- app_assoc. reflexivity.
    + rewrite (exec_handleRefine_rejected pid buffer) by assumption. reflexivity.
  - destruct reply as [data|err].
    + rewrite (exec_handleRefine_resolved pid buffer) by assumption. reflexivity.
    + rewrite (exec_handleRefine_rejected pid buffer) by assumption. reflexivity.
  - intros data ->. split_and!.
    + reflexivity.
    + apply exec_handleRefine_resolved; assumption.
    + rewrite (exec_handleRefine_resolved pid buffer) by assumption. reflexivity.
    + rewrite (exec_handleRefine_resolved pid buffer) by assumption.
      destruct list_reply as [l|e].
      * rewrite exec_fetchSections_resolved by exact H. reflexivity.
      * rewrite exec_fetchSections_rejected by exact H. reflexivity.
Qed.

Lemma refine_sends_buffer_witness :
  let listing := {| items := Some [secA; secB; secC_refined];
                    total := 3; page := 1; size := 100 |} in
  let p' := exec (handleRefine (Some "p1") (Resolved secC_refined) (Resolved listing))
                 editing in
  truthy_string "p1" = true
  /\ selectedSection editing = Some secC_edited
  /\ In secC (sections editing)
  /\ io p' = [Api (refine_request "p1" secC_edited "Make it formal");
              Api (sections_request "p1")]
  /\ refinePrompt p' = ""
  /\ selectedSection p' = Some secC_refined.
Proof.
  cbv zeta.
  pose proof (refine_sends_buffer "p1" secC_edited (Resolved secC_refined)
                (Resolved {| items := Some [secA; secB; secC_refined];
                             total := 3; page := 1; size := 100 |})
                editing eq_refl eq_refl) as (_ & Hio & _ & Hok).
  destruct (Hok secC_refined eq_refl) as (_ & _ & Hprompt & Hsel).
  split_and!.
  - reflexivity.
  - reflexivity.
  - simpl. auto.
  - exact Hio.
  - exact Hprompt.
  - exact Hsel.
Defined.

(** *** Export *)

(** C8: when the export endpoint answers with a status that is not a
    success, the handler performs no file-save action (the request is
    the only action it adds to the trace: no object URL is created, no
    link is clicked), the error slot holds the non-empty message
    [Export failed], and the exporting flag is false when the handler
    completes. *)
Theorem export_failure_no_save
    (pid : string) (base : option string) (code : Z)
    (payload : JsError + Blob) (p : Page) :
  truthy_string pid = true ->
  response_ok code = false ->
  let p' := exec (handleExport (Some pid) base (Responded code payload)) p in
  io p' = io p ++ [Fetch (export_url base pid (exportFormat p))
                         (export_headers (authorization (world p)))]
  /\ List.filter is_save (io p') = List.filter is_save (io p)
  /\ error p' = Some "Export failed"
  /\ "Export failed" <> ""
  /\ exporting p' = false
  /\ outcome (handleExport (Some pid) base (Responded code payload)) p = inr tt.
Proof.
  intros H Hok. cbv zeta.
  unfold handleExport. rewrite !exec_gets_bind, outcome_gets_bind.
  rewrite !(with_projectId_truthy _ _ H).
  unfold exec, outcome, finally, try_catch, bind, modify, throw. simpl.
  rewrite Hok. simpl. split_and!; try reflexivity.
  - rewrite List.filter_app. simpl. apply app_nil_r.
  - discriminate.
Qed.

Lemma export_failure_no_save_witness :
  let p' := exec (handleExport (Some "p1") None
                    (Responded 500 (inl {| message := None |}))) editing in
  truthy_string "p1" = true
  /\ response_ok 500 = false
  /\ io p' = io editing
             ++ [Fetch (export_url None "p1" docx)
                       (export_headers (authorization (world editing)))]
  /\ error p' = Some "Export failed"
  /\ exporting p' = false.
Proof.
  cbv zeta.
  pose proof (export_failure_no_save "p1" None 500
                (inl {| message := None |}) editing eq_refl eq_refl)
    as (Hio & _ & Herr & _ & Hexp & _).
  split_and!; [reflexivity | reflexivity | exact Hio | exact Herr | exact Hexp].
Defined.

(** The request of the example, written out. *)
Example export_request_of_example :
  export_url None "p1" docx = "http://127.0.0.1:8000/projects/p1/export/?format=docx"
  /\ export_headers (authorization (world editing))
     = [("Authorization", "Bearer tok-1")].
Proof. split; vm_compute; reflexivity. Qed.

End DetailFacts.

(** * Properties of the projects page *)

Module ProjectsFacts.
Import Projects.

Lemma range_ok_spec min max value :
  range_ok min max value = true <-> min <= value <= max.
Proof.
  unfold range_ok. rewrite andb_true_iff, !Z.leb_le. reflexivity.
Qed.

Lemma exec_submit_blocked reply list_reply p :
  checkValidity (generator p) = false ->
  exec (submitGenerateForm reply list_reply) p = p.
Proof.
  intros H. unfold submitGenerateForm. rewrite exec_gets_bind, H.
  destruct (generating p); reflexivity.
Qed.

Lemma exec_submit_valid reply list_reply p :
  generating p = false ->
  checkValidity (generator p) = true ->
  exec (submitGenerateForm reply list_reply) p
  = exec (handleGenerate reply list_reply) p.
Proof.
  intros Hg H. unfold submitGenerateForm. rewrite exec_gets_bind, Hg, H.
  reflexivity.
Qed.

Lemma run_projects_api_rejected {A} (req : Request) (err : AxiosError) (p : Page) :
  @api_request A req (RejectedWith err) p
  = (inl err, intercepted err (emit req p)).
Proof.
  unfold api_request, intercepted, via_transport, bind, modify. cbv beta iota.
  rewrite SessionFacts.run_intercept. reflexivity.
Qed.

Lemma run_projects_api_resolved {A} (req : Request) (data : A) (p : Page) :
  api_request req (Resolved data) p = (inr data, emit req p).
Proof. reflexivity. Qed.

Ltac run_api :=
  unfold exec, outcome, bind, finally, try_catch, modify, ret, throw;
  repeat (cbv beta iota;
          first [rewrite run_projects_api_resolved
                | rewrite run_projects_api_rejected]);
  cbv beta iota.

Lemma io_handleGenerate reply list_reply p :
  truthy_string (projectId (generator p)) = true ->
  io (exec (handleGenerate reply list_reply) p)
  = io p ++ generate_request (generator p)
         :: match reply with
            | Resolved _ => [projects_request]
            | RejectedWith _ => []
            end.
Proof.
  intros H. unfold handleGenerate. rewrite exec_gets_bind. cbv zeta. rewrite H.
  destruct reply as [[]|err]; [destruct list_reply as [l|err]|];
    unfold fetchProjects; run_api; simpl;
    rewrite <- ?app_assoc; reflexivity.
Qed.

(** The handler on its own compares nothing with the bounds: they are
    enforced by the constraints of the number input when the form is
    submitted. *)
Remark handleGenerate_has_no_range_check reply list_reply p :
  truthy_string (projectId (generator p)) = true ->
  exists rest,
    io (exec (handleGenerate reply list_reply) p)
    = io p ++ generate_request (generator p) :: rest.
Proof. intros H. rewrite io_handleGenerate by exact H. eexists; reflexivity. Qed.

(** C4: a submission of the generation form whose number of sections
    is 0 or 21 is rejected by the validation of the form before any
    request is sent, and the page is left as it was; the same holds
    for every number outside [1,20].  Every number within [1,20] is
    accepted: with a project selected and no generation in flight the
    request is sent, carrying that number. *)
Theorem generate_rejects_out_of_bounds
    (reply : AxiosResult unit) (list_reply : AxiosResult ProjectListResponse)
    (p : Page) :
  let n := num_sections (generator p) in
  let p' := exec (submitGenerateForm reply list_reply) p in
  (n = 0 \/ n = 21 -> p' = p /\ io p' = io p)
  /\ (~ (1 <= n <= 20) -> p' = p /\ io p' = io p)
  /\ (1 <= n <= 20 ->
      projectId (generator p) <> "" -> generating p = false ->
      exists rest,
        io p' = io p ++ generate_request (generator p) :: rest
        /\ body (generate_request (generator p))
           = [("num_sections", JInt n);
              ("include_outline", JBool (include_outline (generator p)));
              ("outline_format", or_null (outline_format (generator p)))]).
Proof.
  cbv zeta.
  assert (Hout : ~ (1 <= num_sections (generator p) <= 20) ->
                 exec (submitGenerateForm reply list_reply) p = p).
  { intros Hn. apply exec_submit_blocked. unfold checkValidity.
    destruct (range_ok 1 20 (num_sections (generator p))) eqn:Hr.
    - apply range_ok_spec in Hr. contradiction.
    - apply andb_false_r. }
  split_and!.
  - intros Hn. rewrite Hout by lia. split; reflexivity.
  - intros Hn. rewrite Hout by exact Hn. split; reflexivity.
  - intros Hn Hp Hg.
    assert (Ht : truthy_string (projectId (generator p)) = true).
    { unfold truthy_string. apply negb_true_iff, String.eqb_neq, Hp. }
    rewrite exec_submit_valid.
    + rewrite io_handleGenerate by exact Ht. eexists. split; reflexivity.
    + exact Hg.
    + unfold checkValidity, required_ok. rewrite Ht. simpl.
      apply range_ok_spec, Hn.
Qed.

Lemma generate_rejects_out_of_bounds_witness :
  let reply := Resolved tt in
  let listing := Resolved {| p_items := Some []; p_total := 0;
                             p_page := 1; p_size := 50 |} in
  (num_sections (generator (form_with 0)) = 0
   /\ io (exec (submitGenerateForm reply listing) (form_with 0)) = [])
  /\ (num_sections (generator (form_with 21)) = 21
      /\ io (exec (submitGenerateForm reply listing) (form_with 21)) = [])
  /\ (1 <= num_sections (generator (form_with 20)) <= 20
      /\ exists rest,
           io (exec (submitGenerateForm reply listing) (form_with 20))
           = generate_request (generator (form_with 20)) :: rest).
Proof.
  cbv zeta. split; [split | split; [split | split]].
  - reflexivity.
  - apply (proj1 (generate_rejects_out_of_bounds (Resolved tt)
             (Resolved {| p_items := Some []; p_total := 0; p_page := 1; p_size := 50 |})
             (form_with 0))).
    left. reflexivity.
  - reflexivity.
  - apply (proj1 (generate_rejects_out_of_bounds (Resolved tt)
             (Resolved {| p_items := Some []; p_total := 0; p_page := 1; p_size := 50 |})
             (form_with 21))).
    right. reflexivity.
  - simpl. lia.
  - destruct (proj2 (proj2 (generate_rejects_out_of_bounds (Resolved tt)
             (Resolved {| p_items := Some []; p_total := 0; p_page := 1; p_size := 50 |})
             (form_with 20)))) as (rest & Hio & _).
    + simpl. lia.
    + discriminate.
    + reflexivity.
    + exists rest. exact Hio.
Defined.

End ProjectsFacts.

(** * Authorization failures, across the pages *)

Module TransportFacts.
Import Session SessionFacts.


(** The export handler never touches the session store, whatever the
    reply. *)
Lemma handleExport_keeps_world projectId base reply (p : Detail.Page) :
  Detail.world (exec (Detail.handleExport projectId base reply) p) = Detail.world p.
Proof.
  unfold Detail.handleExport. rewrite exec_gets_bind.
  unfold Detail.with_projectId.
  destruct projectId as [pid|]; [destruct (truthy_string pid)|]; try reflexivity.
  destruct reply as [e|code [e|blob]]; try reflexivity;
    unfold exec, finally, try_catch, bind, modify, throw; simpl;
    destruct (Detail.response_ok code); reflexivity.
Qed.




Lemma installed_persist st w : installed (exec (persist st) w) = installed w.
Proof.
  rewrite exec_persist.
  change (installed (setItem ?k ?v ?x)) with (installed x).
  rewrite setAuthHeader_installed. reflexivity.
Qed.


Lemma installed_mount disk : installed (mount disk) = true.
Proof. reflexivity. Qed.



(** Before the installation: a request that a page issues from its
    mount effect during a page load is issued in the
    world of the first render, where the interceptor is not installed
    yet; its rejection, 401 included, goes to the page only, and the
    session the provider then completes is the stored one. *)
Remark page_load_request_not_intercepted
    (disk : gmap string StoredText) (pid : string) (error : AxiosError)
    (p : Detail.Page) :
  Detail.world p = boot disk ->
  truthy_string pid = true ->
  let p' := exec (Detail.fetchSections (Some pid) (RejectedWith error)) p in
  Detail.world p' = boot disk
  /\ providerEffects (Detail.world p') = mount disk
  /\ Detail.error p' = Some (detail_or error "Unable to load sections").
Proof.
  intros Hw H. cbv zeta.
  rewrite DetailFacts.exec_fetchSections_rejected by exact H.
  assert (Hkeep : Detail.world
                    (Detail.intercepted error
                       (Detail.emit (Detail.Api (Detail.sections_request pid))
                          (Detail.setError None (Detail.setLoading true p))))
                  = boot disk).
  { unfold Detail.intercepted.
    change (Detail.world (Detail.setWorld ?x ?y)) with x.
    change (Detail.world (Detail.emit ?a (Detail.setError ?b (Detail.setLoading ?c p))))
      with (Detail.world p).
    rewrite exec_intercept, Hw.
    assert (Hb : installed (boot disk) = false).
    { unfold boot, initAuthState. simpl.
      destruct (disk !! storageKey) as [[raw|parsed]|];
        [destruct (truthy_string raw)| |]; simpl;
        rewrite ?setAuthHeader_installed; reflexivity. }
    rewrite Hb. reflexivity. }
  split_and!.
  - exact Hkeep.
  - change (Detail.world (Detail.setLoading ?a (Detail.setError ?b ?x)))
      with (Detail.world x).
    rewrite Hkeep. reflexivity.
  - reflexivity.
Qed.

(** An instance: with the record of a signed-in user in the storage, a
    401 to the section list that the detail page asks for while the
    page loads leaves the user signed in and the record on disk. *)
Example page_load_401_keeps_stored_session :
  let disk : gmap string StoredText := {[ storageKey := Encoded alice ]} in
  let p := Detail.setWorld (boot disk) Detail.editing in
  let p' := exec (Detail.fetchSections (Some "p1")
                    (RejectedWith (http_error 401 (Some "Not authenticated"))))
                 p in
  let w := providerEffects (Detail.world p') in
  authState w = alice
  /\ localStorage w !! storageKey = Some (Encoded alice)
  /\ headers w !! "Authorization" = Some "Bearer tok-1".
Proof.
  cbv zeta.
  destruct (page_load_request_not_intercepted
              {[ storageKey := Encoded alice ]} "p1"
              (http_error 401 (Some "Not authenticated"))
              (Detail.setWorld (boot {[ storageKey := Encoded alice ]})
                 Detail.editing) eq_refl eq_refl) as (_ & -> & _).
  split_and!; vm_compute; reflexivity.
Qed.



End TransportFacts.

(** * More on the session store *)

Module SessionMoreFacts.
Import Session SessionMore SessionFacts.

Lemma lookup_setAuthHeader token w :
  headers (setAuthHeader token w) !! "Authorization" = bearer token.
Proof.
  unfold setAuthHeader, bearer.
  destruct token as [t|]; [destruct (truthy_string t)|]; simpl;
    first [apply lookup_insert_eq | apply lookup_delete_eq].
Qed.

Lemma lookup_setAuthHeader_ne token w k :
  k <> "Authorization" ->
  headers (setAuthHeader token w) !! k = headers w !! k.
Proof.
  intros Hk. unfold setAuthHeader.
  destruct token as [t|]; [destruct (truthy_string t)|]; simpl;
    first [apply lookup_insert_ne | apply lookup_delete_ne]; congruence.
Qed.

Lemma only_authorization_setAuthHeader token w :
  only_authorization (headers w) ->
  only_authorization (headers (setAuthHeader token w)).
Proof.
  intros H. unfold setAuthHeader.
  destruct token as [t|]; [destruct (truthy_string t)|]; simpl;
    first [apply only_authorization_insert | apply only_authorization_delete];
    exact H.
Qed.

(** X1: the authorization header depends on the last token applied
    only: a second [setAuthHeader] overrides the first whatever the two
    tokens are, the header is [Bearer <token>] for a non-empty token and
    absent for null or the empty string, and no other header, nor the
    credential, nor the storage is touched. *)
Theorem setAuthHeader_last_wins (first last : option string) (w : World) :
  setAuthHeader last (setAuthHeader first w) = setAuthHeader last w
  /\ headers (setAuthHeader last w) !! "Authorization" = bearer last
  /\ (bearer last = None <-> last = None \/ last = Some "")
  /\ (forall k, k <> "Authorization" ->
        headers (setAuthHeader last w) !! k = headers w !! k)
  /\ authState (setAuthHeader last w) = authState w
  /\ localStorage (setAuthHeader last w) = localStorage w.
Proof.
  split_and!.
  - apply world_eq.
    + rewrite !setAuthHeader_authState. reflexivity.
    + rewrite !setAuthHeader_headers.
      destruct (truthy last), (truthy first).
      * apply insert_insert_eq.
      * apply insert_delete_eq.
      * apply delete_insert_eq.
      * apply delete_delete_eq.
    + rewrite !setAuthHeader_localStorage. reflexivity.
    + rewrite !setAuthHeader_installed. reflexivity.
  - apply lookup_setAuthHeader.
  - unfold bearer. destruct last as [t|].
    + unfold truthy_string. destruct (String.eqb_spec t "") as [->|Hne]; simpl.
      * split; auto.
      * split; [discriminate|]. intros [H|H]; congruence.
    + split; auto.
  - intros k Hk. apply lookup_setAuthHeader_ne, Hk.
  - apply setAuthHeader_authState.
  - apply setAuthHeader_localStorage.
Qed.

Lemma setAuthHeader_last_wins_witness :
  "Accept" <> "Authorization"
  /\ headers (setAuthHeader (Some "") alice_world) !! "Accept"
     = headers alice_world !! "Accept"
  /\ headers (setAuthHeader (Some "") alice_world) !! "Authorization" = None.
Proof.
  destruct (setAuthHeader_last_wins None (Some "") alice_world)
    as (_ & Hauth & _ & Hother & _).
  split; [discriminate|]. split.
  - apply Hother. discriminate.
  - exact Hauth.
Defined.

Lemma mount_encoded disk st :
  disk !! storageKey = Some (Encoded st) ->
  authState (mount disk) = st
  /\ localStorage (mount disk) = disk
  /\ headers (mount disk)
     = match bearer (accessToken st) with
       | Some v => <["Authorization" := v]> axios_common
       | None => axios_common
       end.
Proof.
  intros H. unfold mount, providerEffects, boot, initAuthState. simpl. rewrite H.
  unfold headerEffect. simpl.
  rewrite setAuthHeader_authState, setAuthHeader_localStorage. simpl.
  rewrite setAuthHeader_localStorage. split_and!; try reflexivity.
  unfold setAuthHeader, bearer.
  destruct (accessToken st) as [t|]; [destruct (truthy_string t) eqn:Ht|];
    simpl; rewrite ?Ht; simpl.
  - apply insert_insert_eq.
  - rewrite !only_authorization_axios. reflexivity.
  - rewrite !only_authorization_axios. reflexivity.
Qed.

Lemma mount_none disk :
  disk !! storageKey = None ->
  authState (mount disk) = signedOut
  /\ localStorage (mount disk) = disk
  /\ headers (mount disk) = axios_common.
Proof.
  intros H. unfold mount, providerEffects, boot, initAuthState. simpl. rewrite H.
  unfold headerEffect. simpl. split_and!; reflexivity.
Qed.

(** X2: what [persist] writes is what a page load reads back: whatever
    the credential and whatever the world, a reload after [persist]
    starts with that credential in memory, with the authorization
    header of its access token, and with the record still on disk. *)
Theorem persist_reload_round_trip (st : AuthState) (w : World) :
  let w' := step Reload (exec (persist st) w) in
  authState w' = st
  /\ headers w' !! "Authorization" = bearer (accessToken st)
  /\ localStorage w' !! storageKey = Some (Encoded st).
Proof.
  cbv zeta. unfold step.
  assert (H : localStorage (exec (persist st) w) !! storageKey = Some (Encoded st)).
  { rewrite exec_persist. simpl. apply lookup_insert_eq. }
  destruct (mount_encoded _ _ H) as (Hs & Hl & Hh).
  rewrite Hs, Hl, Hh. split_and!; [reflexivity| |exact H].
  destruct (bearer (accessToken st)) as [v|].
  - apply lookup_insert_eq.
  - apply lookup_singleton_ne. discriminate.
Qed.

(** X3: a record that fails to parse is discarded at page load: the
    text under the key is removed and nothing else in the storage is,
    nobody is signed in, and the transport carries its default headers
    only. *)
Theorem corrupt_record_discarded (disk : gmap string StoredText) (raw : string) :
  disk !! storageKey = Some (Garbled raw) ->
  raw <> "" ->
  let w := mount disk in
  authState w = signedOut
  /\ localStorage w = delete storageKey disk
  /\ localStorage w !! storageKey = None
  /\ headers w = axios_common.
Proof.
  intros H Hraw. cbv zeta. unfold mount, providerEffects, boot, initAuthState. simpl.
  rewrite H, (truthy_string_nonempty _ Hraw). unfold headerEffect. simpl.
  split_and!; try reflexivity. apply lookup_delete_eq.
Qed.

Lemma corrupt_record_discarded_witness :
  let disk : gmap string StoredText :=
    {[ storageKey := Garbled "{accessToken:"; "theme" := Garbled "dark" ]} in
  (disk !! storageKey = Some (Garbled "{accessToken:") /\ "{accessToken:" <> "")
  /\ authState (mount disk) = signedOut
  /\ localStorage (mount disk) !! "theme" = Some (Garbled "dark").
Proof.
  cbv zeta.
  assert (H : ({[ storageKey := Garbled "{accessToken:"; "theme" := Garbled "dark" ]}
                 : gmap string StoredText) !! storageKey
              = Some (Garbled "{accessToken:")).
  { apply lookup_insert_eq. }
  assert (Hraw : "{accessToken:" <> "") by discriminate.
  destruct (corrupt_record_discarded _ _ H Hraw) as (Hs & Hl & _ & _).
  split; [split; assumption|]. split; [exact Hs|].
  rewrite Hl. rewrite lookup_delete_ne by discriminate.
  rewrite lookup_insert_ne by discriminate. apply lookup_singleton_eq.
Defined.

Lemma exec_onRejected_other {A} error w :
  has_status error 401 = false -> exec (@onRejected A error) w = w.
Proof. intros H. rewrite exec_onRejected, H. reflexivity. Qed.

Lemma exec_intercept_other {A} error w :
  has_status error 401 = false -> exec (@intercept A error) w = w.
Proof.
  intros H. rewrite exec_intercept, exec_onRejected_other by exact H.
  destruct (installed w); reflexivity.
Qed.

Lemma commit_same w : commit w w = w.
Proof. unfold commit. case_decide; [reflexivity|congruence]. Qed.

(** X4: a login or a registration that fails with anything but a 401
    (no response, 400, 422, 500, ...) changes nothing: the credential,
    the headers and the storage are as before, and the error reaches
    the caller.  When the registration request fails, no login is
    attempted: the reply prepared for the login plays no part. *)
Theorem failed_sign_in_keeps_session
    (email password : string) (error : AxiosError)
    (login_reply other_reply : AxiosResult LoginData) (w : World) :
  has_status error 401 = false ->
  (outcome (login email password (RejectedWith error)) w = inl error
   /\ step (Login email password (RejectedWith error)) w = w)
  /\ (outcome (register email password (RejectedWith error) login_reply) w
        = inl error
      /\ step (Register email password (RejectedWith error) login_reply) w = w
      /\ register email password (RejectedWith error) login_reply w
         = register email password (RejectedWith error) other_reply w).
Proof.
  intros H. split; [split | split_and!].
  - unfold login, api_call, outcome, bind. rewrite run_intercept. reflexivity.
  - unfold step, handle. rewrite exec_login_rejected, exec_intercept_other by exact H.
    apply commit_same.
  - unfold register, api_call, outcome, bind. rewrite run_intercept. reflexivity.
  - unfold step, handle.
    rewrite exec_register_rejected, exec_intercept_other by exact H.
    apply commit_same.
  - unfold register, api_call, bind. rewrite run_intercept. reflexivity.
Qed.

Lemma failed_sign_in_keeps_session_witness :
  let error := http_error 400 (Some "Email already registered") in
  has_status error 401 = false
  /\ step (Register "alice@example.org" "secret" (RejectedWith error)
            (Resolved alice_token)) alice_world = alice_world.
Proof.
  cbv zeta. split; [reflexivity|].
  apply (failed_sign_in_keeps_session "alice@example.org" "secret"
           (http_error 400 (Some "Email already registered"))
           (Resolved alice_token) (Resolved alice_token) alice_world).
  reflexivity.
Defined.

(** *** The transport and the storage mirror the credential *)

Lemma settled_persist st w :
  only_authorization (headers w) -> installed w = true ->
  settled (exec (persist st) w).
Proof.
  intros H Hi.
  assert (Hi' : installed (exec (persist st) w) = true).
  { rewrite TransportFacts.installed_persist. exact Hi. }
  revert Hi'.
  rewrite exec_persist. unfold settled, header_synced, storage_mirrors.
  simpl. rewrite setAuthHeader_authState. simpl. intros Hi'. split_and!.
  - apply only_authorization_setAuthHeader, H.
  - apply lookup_setAuthHeader.
  - left. apply lookup_insert_eq.
  - exact Hi'.
Qed.

Lemma settled_rejected {A} error w :
  settled w -> settled (commit w (exec (@intercept A error) w)).
Proof.
  intros (Hh & Hs & Hm & Hi). rewrite exec_intercept, Hi, exec_onRejected.
  destruct (has_status error 401).
  - unfold commit. simpl. case_decide as Htok.
    + unfold settled, header_synced, storage_mirrors. simpl. split_and!.
      * exact Hh.
      * unfold header_synced in Hs. rewrite Hs, Htok. reflexivity.
      * right. split; [apply lookup_delete_eq|reflexivity].
      * exact Hi.
    + unfold headerEffect, settled, header_synced, storage_mirrors. simpl.
      split_and!.
      * apply only_authorization_delete, Hh.
      * apply lookup_delete_eq.
      * right. split; [apply lookup_delete_eq|reflexivity].
      * exact Hi.
  - rewrite commit_same. split_and!; assumption.
Qed.

Lemma settled_mount w : storage_mirrors w -> settled (mount (localStorage w)).
Proof.
  intros [H|[H _]].
  - destruct (mount_encoded _ _ H) as (Hs & Hl & Hh).
    unfold settled, header_synced, storage_mirrors, only_authorization.
    rewrite Hs, Hl, Hh. split_and!.
    + destruct (bearer (accessToken (authState w))).
      * rewrite delete_insert_eq. apply only_authorization_axios.
      * apply only_authorization_axios.
    + destruct (bearer (accessToken (authState w))).
      * apply lookup_insert_eq.
      * apply lookup_singleton_ne. discriminate.
    + left. exact H.
    + apply TransportFacts.installed_mount.
  - destruct (mount_none _ H) as (Hs & Hl & Hh).
    unfold settled, header_synced, storage_mirrors, only_authorization.
    rewrite Hs, Hl, Hh. split_and!.
    + apply only_authorization_axios.
    + apply lookup_singleton_ne. discriminate.
    + right. split; [exact H|reflexivity].
    + apply TransportFacts.installed_mount.
Qed.

Lemma settled_step ev w : settled w -> settled (step ev w).
Proof.
  intros H. pose proof H as (Hh & _ & Hm & Hi).
  destruct ev as [|email password reply
                  |email password reply login_reply| |error|error]; simpl.
  - apply settled_mount, Hm.
  - destruct reply as [data|error].
    + change (login email password (Resolved data))
        with (persist {| accessToken := Some (access_token data);
                         refreshToken := refresh_token data;
                         userEmail := Some email |}).
      rewrite handle_persist. apply settled_persist; [exact Hh|exact Hi].
    + unfold handle. rewrite exec_login_rejected. apply settled_rejected, H.
  - destruct reply as [[]|error].
    + unfold handle. rewrite exec_register_resolved.
      destruct login_reply as [data|error].
      * change (login email password (Resolved data))
          with (persist {| accessToken := Some (access_token data);
                           refreshToken := refresh_token data;
                           userEmail := Some email |}).
        fold (handle (persist {| accessToken := Some (access_token data);
                                 refreshToken := refresh_token data;
                                 userEmail := Some email |}) w).
        rewrite handle_persist. apply settled_persist; [exact Hh|exact Hi].
      * rewrite exec_login_rejected. apply settled_rejected, H.
    + unfold handle. rewrite exec_register_rejected. apply settled_rejected, H.
  - unfold logout. rewrite handle_persist. apply settled_persist; [exact Hh|exact Hi].
  - apply settled_rejected, H.
  - unfold handle, exec, throw. simpl. rewrite commit_same. exact H.
Qed.

Lemma settled_fresh : settled fresh.
Proof.
  unfold fresh.
  destruct (mount_none ∅ (lookup_empty _)) as (Hs & Hl & Hh).
  unfold settled, header_synced, storage_mirrors, only_authorization.
  rewrite Hs, Hl, Hh. split_and!.
  - apply only_authorization_axios.
  - apply lookup_singleton_ne. discriminate.
  - right. split; [apply lookup_empty|reflexivity].
  - apply TransportFacts.installed_mount.
Qed.

Lemma settled_run evs : forall w, settled w -> settled (run evs w).
Proof.
  unfold run. induction evs as [|ev evs IH]; intros w H; simpl.
  - exact H.
  - apply IH, settled_step, H.
Qed.

Lemma settled_reachable evs : settled (run evs fresh).
Proof. apply settled_run, settled_fresh. Qed.

(** X5: after every sequence of transitions of the store from a
    browser with empty storage, the transport and the storage mirror
    the credential: the authorization header is [Bearer <token>] when
    the access token is a non-empty string and absent otherwise (so it
    is gone after a logout and after a 401, once the render that
    follows has run), and the record on disk is the credential in
    memory, or is absent while nobody is signed in. *)
Theorem session_mirrored (evs : list Event) :
  let w := run evs fresh in
  headers w !! "Authorization" = bearer (accessToken (authState w))
  /\ (localStorage w !! storageKey = Some (Encoded (authState w))
      \/ (localStorage w !! storageKey = None /\ authState w = signedOut)).
Proof.
  cbv zeta. destruct (settled_run evs fresh settled_fresh) as (_ & Hs & Hm & _).
  split; assumption.
Qed.

Lemma headers_determined h :
  only_authorization h ->
  h = match h !! "Authorization" with
      | Some v => <["Authorization" := v]> axios_common
      | None => axios_common
      end.
Proof.
  unfold only_authorization. intros H.
  destruct (h !! "Authorization") as [v|] eqn:Hl.
  - rewrite <- H, insert_delete_eq. symmetry. apply insert_id, Hl.
  - rewrite <- H. symmetry. apply delete_id, Hl.
Qed.

Lemma reload_settled w : settled w -> step Reload w = w.
Proof.
  intros (Hh & Hs & Hm & Hi). simpl.
  pose proof (headers_determined _ Hh) as Hd.
  unfold header_synced in Hs. rewrite Hs in Hd.
  pose proof (TransportFacts.installed_mount (localStorage w)) as Hi'.
  destruct Hm as [H|[H Hout]].
  - destruct (mount_encoded _ _ H) as (Hs' & Hl' & Hh').
    apply world_eq; [assumption| |assumption|congruence].
    rewrite Hh'. symmetry. exact Hd.
  - destruct (mount_none _ H) as (Hs' & Hl' & Hh').
    apply world_eq.
    + congruence.
    + rewrite Hh'. rewrite Hout in Hd. symmetry. exact Hd.
    + exact Hl'.
    + congruence.
Qed.

(** X6: a page reload loses nothing: after every sequence of
    transitions of the store from a browser with empty storage,
    reloading the page gives back exactly the credential, the headers
    and the storage that were there. *)
Theorem reload_is_identity (evs : list Event) :
  step Reload (run evs fresh) = run evs fresh
  /\ run (evs ++ [Reload]) fresh = run evs fresh.
Proof.
  assert (H : step Reload (run evs fresh) = run evs fresh).
  { apply reload_settled, settled_run, settled_fresh. }
  split; [exact H|].
  unfold run in *. rewrite fold_left_app. simpl. exact H.
Qed.

(** X7: the store keeps to its own key: no transition reads or writes
    any other entry of the storage. *)
Theorem storage_other_keys_untouched (ev : Event) (w : World) (k : string) :
  k <> storageKey ->
  localStorage (step ev w) !! k = localStorage w !! k.
Proof.
  intros Hk.
  assert (Hcommit : forall before after,
            localStorage (commit before after) = localStorage after).
  { intros before after. unfold commit, headerEffect. case_decide; [reflexivity|].
    apply setAuthHeader_localStorage. }
  assert (Hrej : forall A error,
            localStorage (exec (@intercept A error) w) !! k = localStorage w !! k).
  { intros A error. rewrite exec_intercept.
    destruct (installed w); [|reflexivity]. rewrite exec_onRejected.
    destruct (has_status error 401); [|reflexivity].
    simpl. apply lookup_delete_ne. congruence. }
  assert (Hper : forall st,
            localStorage (exec (persist st) w) !! k = localStorage w !! k).
  { intros st. rewrite exec_persist. simpl.
    rewrite lookup_insert_ne by congruence.
    rewrite setAuthHeader_localStorage. reflexivity. }
  destruct ev as [|email password reply
                  |email password reply login_reply| |error|error]; simpl.
  - unfold mount, providerEffects, boot, initAuthState. simpl.
    destruct (localStorage w !! storageKey) as [[raw|parsed]|];
      [destruct (truthy_string raw)| |]; unfold headerEffect; simpl;
      rewrite ?setAuthHeader_localStorage; simpl;
      rewrite ?setAuthHeader_localStorage; simpl;
      first [reflexivity | apply lookup_delete_ne; congruence].
  - unfold handle. rewrite Hcommit. destruct reply as [data|error].
    + apply (Hper {| accessToken := Some (access_token data);
                     refreshToken := refresh_token data;
                     userEmail := Some email |}).
    + rewrite exec_login_rejected. apply Hrej.
  - unfold handle. rewrite Hcommit. destruct reply as [[]|error].
    + rewrite exec_register_resolved. destruct login_reply as [data|error].
      * apply (Hper {| accessToken := Some (access_token data);
                       refreshToken := refresh_token data;
                       userEmail := Some email |}).
      * rewrite exec_login_rejected. apply Hrej.
    + rewrite exec_register_rejected. apply Hrej.
  - unfold handle. rewrite Hcommit. apply (Hper signedOut).
  - unfold handle. rewrite Hcommit. apply Hrej.
  - unfold handle. rewrite Hcommit. reflexivity.
Qed.

Lemma storage_other_keys_untouched_witness :
  let w := setItem "theme" (Garbled "dark") alice_world in
  "theme" <> storageKey
  /\ localStorage (step Logout w) !! "theme" = Some (Garbled "dark").
Proof.
  cbv zeta. split; [discriminate|].
  rewrite (storage_other_keys_untouched Logout
             (setItem "theme" (Garbled "dark") alice_world) "theme")
    by discriminate.
  apply lookup_insert_eq.
Defined.

End SessionMoreFacts.

(** * Route guards *)

Module RoutingFacts.
Import Session SessionFacts Routing.

Lemma settle_two (w : World) (at_ : Location) :
  settle 2 w at_
  = Some (if truthy (accessToken (authState w))
          then match at_ with
               | ProjectPath projectId => ProjectDetailScreen projectId
               | _ => ProjectsScreen
               end
          else match at_ with
               | RegisterPath => RegisterScreen
               | _ => LoginScreen
               end).
Proof.
  unfold settle, App, AuthLayout, DashboardLayout.
  destruct at_; destruct (truthy (accessToken (authState w))); reflexivity.
Qed.

(** X8: the route table and the two layouts never loop: from every
    location, at most two redirects lead to a screen.  A visitor with a
    non-empty access token always ends on a protected screen (the
    project asked for, or the project list), never on the sign-in or
    registration screen; a visitor without one always ends on the
    sign-in screen, or on the registration screen when that is the
    location asked for. *)
Theorem guards_settle (w : World) (at_ : Location) :
  settle 2 w at_
  = Some (if truthy (accessToken (authState w))
          then match at_ with
               | ProjectPath projectId => ProjectDetailScreen projectId
               | _ => ProjectsScreen
               end
          else match at_ with
               | RegisterPath => RegisterScreen
               | _ => LoginScreen
               end)
  /\ (forall screen, settle 2 w at_ = Some screen ->
        public screen = negb (truthy (accessToken (authState w))))
  /\ (forall fuel, (2 <= fuel)%nat -> settle fuel w at_ = settle 2 w at_).
Proof.
  split; [apply settle_two|]. split.
  - intros screen Hs. rewrite settle_two in Hs. injection Hs as <-.
    destruct at_; destruct (truthy (accessToken (authState w))); reflexivity.
  - intros fuel Hf. destruct fuel as [|[|fuel]]; [lia | lia |].
    destruct (truthy (accessToken (authState w))) eqn:Htok;
      destruct at_, fuel;
      repeat (cbn [settle App]; unfold AuthLayout, DashboardLayout;
              rewrite ?Htok; cbn [negb]);
      reflexivity.
Qed.

Lemma guards_settle_witness :
  settle 2 alice_world LoginPath = Some ProjectsScreen
  /\ ((5 >= 2)%nat /\ settle 5 fresh (Elsewhere "/nowhere") = Some LoginScreen).
Proof.
  destruct (guards_settle alice_world LoginPath) as (Hin & _ & _).
  destruct (guards_settle fresh (Elsewhere "/nowhere")) as (Hout & _ & Hfuel).
  split; [exact Hin|]. split; [lia|].
  rewrite (Hfuel 5%nat) by lia. exact Hout.
Defined.

Lemma authState_persist st w : authState (exec (persist st) w) = st.
Proof.
  rewrite exec_persist.
  change (authState (setItem ?k ?v ?x)) with (authState x).
  rewrite setAuthHeader_authState. reflexivity.
Qed.

Lemma truthy_signed_out w : cleared w -> truthy (accessToken (authState w)) = false.
Proof. intros [H _]. rewrite H. reflexivity. Qed.

(** X9: the guards follow the session.  After a logout, every
    location but the registration page leads to the sign-in screen; so
    it does after a 401 on a request that was sent through the axios
    client while the store's response interceptor was installed; after
    a login that returns a non-empty token, every location, the
    registration page included, leads to a protected screen. *)
Theorem guards_follow_session
    (w : World) (at_ : Location) (error : AxiosError)
    (email password : string) (data : LoginData) :
  (at_ <> RegisterPath ->
   settle 2 (step Logout w) at_ = Some LoginScreen)
  /\ (at_ <> RegisterPath ->
      installed w = true ->
      has_status error 401 = true ->
      settle 2 (step (Rejection error) w) at_ = Some LoginScreen)
  /\ (access_token data <> "" ->
      exists screen,
        settle 2 (step (Login email password (Resolved data)) w) at_ = Some screen
        /\ public screen = false).
Proof.
  split_and!.
  - intros Hat. rewrite settle_two, step_logout. simpl.
    destruct at_; congruence.
  - intros Hat Hi Herr. rewrite settle_two.
    rewrite truthy_signed_out.
    + destruct at_; congruence.
    + apply cleared_commit. unfold step, handle.
      rewrite exec_intercept, Hi. apply cleared_onRejected, Herr.
  - intros Htok. eexists. split; [apply settle_two|].
    unfold step.
    change (login email password (Resolved data))
      with (persist {| accessToken := Some (access_token data);
                       refreshToken := refresh_token data;
                       userEmail := Some email |}).
    rewrite handle_persist, authState_persist. simpl.
    rewrite (truthy_string_nonempty _ Htok). destruct at_; reflexivity.
Qed.

Lemma guards_follow_session_witness :
  let error := http_error 401 (Some "Could not validate credentials") in
  (ProjectPath "p1" <> RegisterPath
   /\ installed alice_world = true
   /\ has_status error 401 = true
   /\ access_token alice_token <> "")
  /\ settle 2 (step Logout alice_world) (ProjectPath "p1") = Some LoginScreen
  /\ settle 2 (step (Rejection error) alice_world) (ProjectPath "p1")
     = Some LoginScreen
  /\ exists screen,
       settle 2 (step (Login "alice@example.org" "secret" (Resolved alice_token))
                   alice_world) (ProjectPath "p1") = Some screen
       /\ public screen = false.
Proof.
  cbv zeta.
  split; [split_and!; [discriminate | reflexivity | reflexivity | discriminate]|].
  destruct (guards_follow_session alice_world (ProjectPath "p1")
              (http_error 401 (Some "Could not validate credentials"))
              "alice@example.org" "secret" alice_token) as (Hout & Hrej & Hin).
  split_and!.
  - apply Hout. discriminate.
  - apply Hrej; [discriminate | reflexivity | reflexivity].
  - apply Hin. discriminate.
Defined.

End RoutingFacts.

(** * More on the project detail page *)

Module DetailMoreFacts.
Import Detail DetailMore DetailFacts.

(** Fields of the page that the response interceptor leaves alone. *)
Lemma intercepted_fields error p :
  sections (intercepted error p) = sections p
  /\ selectedSection (intercepted error p) = selectedSection p
  /\ io (intercepted error p) = io p
  /\ project (intercepted error p) = project p.
Proof. split_and!; reflexivity. Qed.

(** X10: a reload of the section list that fails keeps what the page
    had: the list and the selected buffer are unchanged, the loading
    flag is cleared, and the error slot holds the detail sent by the
    server or else [Unable to load sections].  A reload that succeeds
    without an [items] field shows an empty list and clears the
    selection. *)
Theorem failed_reload_keeps_list
    (pid : string) (err : AxiosError) (data : SectionListResponse) (p : Page) :
  truthy_string pid = true ->
  (let p' := exec (fetchSections (Some pid) (RejectedWith err)) p in
   sections p' = sections p
   /\ selectedSection p' = selectedSection p
   /\ loading p' = false
   /\ error p' = Some (detail_or err "Unable to load sections")
   /\ io p' = io p ++ [Api (sections_request pid)])
  /\ (items data = None ->
      let p' := exec (fetchSections (Some pid) (Resolved data)) p in
      sections p' = [] /\ selectedSection p' = None
      /\ loading p' = false /\ error p' = None).
Proof.
  intros H. split.
  - cbv zeta. rewrite exec_fetchSections_rejected by exact H.
    split_and!; reflexivity.
  - intros Hi. cbv zeta. rewrite exec_fetchSections_resolved by exact H.
    rewrite Hi. split_and!; reflexivity.
Qed.

Lemma failed_reload_keeps_list_witness :
  let p' := exec (fetchSections (Some "p1")
                    (RejectedWith (http_error 503 None))) editing in
  truthy_string "p1" = true
  /\ sections p' = [secA; secB; secC]
  /\ selectedSection p' = Some secC_edited
  /\ error p' = Some "Unable to load sections".
Proof.
  cbv zeta.
  destruct (failed_reload_keeps_list "p1" (http_error 503 None) no_items
              editing eq_refl) as ((Hs & Hsel & _ & He & _) & _).
  split_and!; [reflexivity | exact Hs | exact Hsel | exact He].
Defined.

Lemma reconcile_same_id secs a b :
  id a = id b -> reconcile secs (Some a) = reconcile secs (Some b).
Proof.
  intros H. unfold reconcile.
  assert (Hf : same_id a = same_id b).
  { unfold same_id. rewrite H. reflexivity. }
  rewrite Hf. reflexivity.
Qed.

Lemma exec_updateSelected f p :
  exec (updateSelected f) p
  = setSelectedSection (option_map f (selectedSection p)) p.
Proof. unfold updateSelected, exec, modify. simpl. destruct (selectedSection p); reflexivity. Qed.

(** X11: a reload that succeeds forgets what was typed and not saved:
    the page after the reload is the same whether or not, and whatever,
    the user had typed into the title and the content of the selected
    section, because the selection is matched by id and the buffer is
    replaced by the entry of the new list. *)
Theorem reload_forgets_unsaved_edits
    (pid : string) (data : SectionListResponse) (typedTitle typedContent : string)
    (p : Page) :
  truthy_string pid = true ->
  exec (typeTitle typedTitle ;; typeContent typedContent ;;
        fetchSections (Some pid) (Resolved data)) p
  = exec (fetchSections (Some pid) (Resolved data)) p.
Proof.
  intros H.
  assert (Hrun : forall q,
            (typeTitle typedTitle ;; typeContent typedContent ;;
             fetchSections (Some pid) (Resolved data)) q
            = fetchSections (Some pid) (Resolved data)
                (exec (typeContent typedContent) (exec (typeTitle typedTitle) q))).
  { intros q. reflexivity. }
  unfold exec at 1. rewrite Hrun. fold (exec (fetchSections (Some pid) (Resolved data))
    (exec (typeContent typedContent) (exec (typeTitle typedTitle) p))).
  rewrite !exec_fetchSections_resolved by exact H.
  unfold typeTitle, typeContent. rewrite !exec_updateSelected.
  destruct p as [pr secs ld er sv sel rp gp lb ex ef tr wd]. simpl.
  destruct sel as [s|]; simpl; [|reflexivity].
  rewrite (reconcile_same_id _ (with_content typedContent (with_title typedTitle s)) s)
    by reflexivity.
  reflexivity.
Qed.

Lemma reload_forgets_unsaved_edits_witness :
  truthy_string "p1" = true
  /\ selectedSection
       (exec (typeTitle "Outlook 2030" ;; typeContent "Rewritten." ;;
              fetchSections (Some "p1") (Resolved (listing [secA; secB; secC])))
          editing)
     = Some secC.
Proof.
  cbv zeta. split; [reflexivity|].
  rewrite (reload_forgets_unsaved_edits "p1" (listing [secA; secB; secC])
             "Outlook 2030" "Rewritten." editing eq_refl).
  reflexivity.
Defined.

(** *** Typing and saving *)

Lemma exec_seq {S E A B} (c : M S E A) (k : M S E B) (s : S) (a : A) :
  outcome c s = inr a -> exec (c ;; k) s = exec k (exec c s).
Proof.
  unfold outcome, exec, bind. destruct (c s) as [r s']. simpl.
  intros ->. reflexivity.
Qed.

Lemma outcome_updateSelected f p : outcome (updateSelected f) p = inr tt.
Proof. reflexivity. Qed.

(** X12: typing into the editor changes the buffer and nothing else
    (the section list, the trace and the session are as before, and the
    buffer keeps its id and every field but the one typed), and Save
    sends what was typed: after a title and a content are typed, the
    Save button issues a PUT to the URL of the section that was
    selected, whose body is that title and that content.  While a save
    is in flight the button does nothing. *)
Theorem save_sends_what_was_typed
    (pid : string) (buffer : SectionT) (typedTitle typedContent : string)
    (reply : AxiosResult unit) (list_reply : AxiosResult SectionListResponse)
    (p : Page) :
  truthy_string pid = true ->
  selectedSection p = Some buffer ->
  let typed := exec (typeContent typedContent) (exec (typeTitle typedTitle) p) in
  (sections typed = sections p /\ io typed = io p /\ world typed = world p
   /\ selectedSection typed
      = Some (with_content typedContent (with_title typedTitle buffer))
   /\ selectedSection (exec (typeTitle typedTitle) p)
      = Some (with_title typedTitle buffer))
  /\ (savingSection p = false ->
      io (exec (clickSave (Some pid) reply list_reply) typed)
      = io p ++ Api {| method := PUT;
                       url := "/projects/" +:+ pid +:+ "/sections/" +:+ id buffer;
                       params := [];
                       body := [("title", JStr typedTitle);
                                ("content", JStr typedContent)] |}
               :: match reply with
                  | Resolved _ => [Api (sections_request pid)]
                  | RejectedWith _ => []
                  end)
  /\ (savingSection p = true ->
      exec (clickSave (Some pid) reply list_reply) typed = typed).
Proof.
  intros H Hsel. cbv zeta.
  assert (Htyped : exec (typeContent typedContent) (exec (typeTitle typedTitle) p)
                   = setSelectedSection
                       (Some (with_content typedContent (with_title typedTitle buffer)))
                       p).
  { unfold typeTitle, typeContent. rewrite !exec_updateSelected.
    cbn [selectedSection setSelectedSection]. rewrite Hsel. reflexivity. }
  rewrite Htyped. split; [split_and!; try reflexivity|].
  { unfold typeTitle. rewrite exec_updateSelected.
    cbn [selectedSection setSelectedSection]. rewrite Hsel. reflexivity. }
  split.
  - intros Hsv. unfold clickSave. rewrite exec_gets_bind.
    cbn [savingSection selectedSection setSelectedSection]. rewrite Hsv.
    destruct reply as [[]|err].
    + rewrite exec_handleSectionUpdate_resolved by exact H.
      change (io (setSavingSection false ?x)) with (io x).
      rewrite io_fetchSections by exact H. simpl.
      rewrite <- app_assoc. reflexivity.
    + rewrite exec_handleSectionUpdate_rejected by exact H. reflexivity.
  - intros Hsv. unfold clickSave. rewrite exec_gets_bind.
    cbn [savingSection selectedSection setSelectedSection]. rewrite Hsv.
    reflexivity.
Qed.

Lemma save_sends_what_was_typed_witness :
  let typed := exec (typeContent "Rewritten.") (exec (typeTitle "Outlook 2030") editing) in
  (truthy_string "p1" = true /\ selectedSection editing = Some secC_edited
   /\ savingSection editing = false)
  /\ io (exec (clickSave (Some "p1") (RejectedWith (http_error 500 None))
               (Resolved (listing []))) typed)
     = [Api {| method := PUT; url := "/projects/p1/sections/c"; params := [];
               body := [("title", JStr "Outlook 2030");
                        ("content", JStr "Rewritten.")] |}].
Proof.
  cbv zeta. split; [split_and!; reflexivity|].
  destruct (save_sends_what_was_typed "p1" secC_edited "Outlook 2030" "Rewritten."
              (RejectedWith (http_error 500 None)) (Resolved (listing []))
              editing eq_refl eq_refl) as (_ & Hio & _).
  exact (Hio eq_refl).
Defined.

(** *** Generating the content of a section *)

Lemma exec_handleGenerate_resolved pid buffer data list_reply p :
  truthy_string pid = true ->
  selectedSection p = Some buffer ->
  exec (handleGenerate (Some pid) (Resolved data) list_reply) p =
  setLlmBusy false
    (exec (fetchSections (Some pid) list_reply)
       (setSelectedSection (Some data)
          (emit (Api (generate_request pid buffer (generatePrompt p)))
             (setError None (setLlmBusy true p))))).
Proof.
  intros H Hsel. unfold handleGenerate. rewrite exec_gets_bind, Hsel.
  rewrite (with_projectId_truthy _ _ H).
  unfold api_request.
  unfold exec at 1, bind, finally, try_catch, modify, ret.
  cbv beta iota. rewrite run_fetchSections. reflexivity.
Qed.

Lemma exec_handleGenerate_rejected pid buffer err list_reply p :
  truthy_string pid = true ->
  selectedSection p = Some buffer ->
  exec (handleGenerate (Some pid) (RejectedWith err) list_reply) p =
  setLlmBusy false
    (setError (Some (detail_or err "Unable to generate content"))
       (intercepted err
          (emit (Api (generate_request pid buffer (generatePrompt p)))
             (setError None (setLlmBusy true p))))).
Proof.
  intros H Hsel. unfold handleGenerate. rewrite exec_gets_bind, Hsel.
  rewrite (with_projectId_truthy _ _ H).
  run_rejected.
Qed.

(** X13: the generation request of a section takes for prompt the text
    of the generation input, or the title of the buffer when that input
    is empty.  When the request succeeds the buffer becomes the section
    returned, reconciled by id against the reloaded list if the reload
    succeeds, and the generation input keeps its text (it is not
    cleared, unlike the refine input).  When the request fails the
    buffer and the list are untouched, nothing is reloaded, and the
    error slot holds the server's detail or else [Unable to generate
    content].  The busy flag is cleared in both cases. *)
Theorem generate_prompt_defaults_to_title
    (pid : string) (buffer : SectionT) (reply : AxiosResult SectionT)
    (list_reply : AxiosResult SectionListResponse) (p : Page) :
  truthy_string pid = true ->
  selectedSection p = Some buffer ->
  let p' := exec (handleGenerate (Some pid) reply list_reply) p in
  body (generate_request pid buffer (generatePrompt p))
    = [("prompt", JStr (if String.eqb (generatePrompt p) ""
                        then title buffer else generatePrompt p));
       ("temperature", JDec 7 1);
       ("max_tokens", JInt 800)]
  /\ llmBusy p' = false
  /\ generatePrompt p' = generatePrompt p
  /\ match reply with
     | Resolved data =>
         io p' = io p ++ [Api (generate_request pid buffer (generatePrompt p));
                          Api (sections_request pid)]
         /\ selectedSection p'
            = match list_reply with
              | Resolved l => reconcile (default [] (items l)) (Some data)
              | RejectedWith _ => Some data
              end
     | RejectedWith err =>
         io p' = io p ++ [Api (generate_request pid buffer (generatePrompt p))]
         /\ selectedSection p' = Some buffer
         /\ sections p' = sections p
         /\ error p' = Some (detail_or err "Unable to generate content")
     end.
Proof.
  intros H Hsel. cbv zeta. split_and!.
  - unfold generate_request, prompt_or_title, truthy_string. simpl.
    destruct (String.eqb (generatePrompt p) ""); reflexivity.
  - destruct reply as [data|err].
    + rewrite (exec_handleGenerate_resolved pid buffer) by assumption. reflexivity.
    + rewrite (exec_handleGenerate_rejected pid buffer) by assumption. reflexivity.
  - destruct reply as [data|err].
    + rewrite (exec_handleGenerate_resolved pid buffer) by assumption.
      destruct list_reply as [l|e].
      * rewrite exec_fetchSections_resolved by exact H. reflexivity.
      * rewrite exec_fetchSections_rejected by exact H. reflexivity.
    + rewrite (exec_handleGenerate_rejected pid buffer) by assumption. reflexivity.
  - destruct reply as [data|err].
    + rewrite (exec_handleGenerate_resolved pid buffer) by assumption. split.
      * change (io (setLlmBusy false ?x)) with (io x).
        rewrite io_fetchSections by exact H. simpl.
        rewrite <- app_assoc. reflexivity.
      * destruct list_reply as [l|e].
        -- rewrite exec_fetchSections_resolved by exact H. reflexivity.
        -- rewrite exec_fetchSections_rejected by exact H. reflexivity.
    + rewrite (exec_handleGenerate_rejected pid buffer) by assumption.
      split_and!; try reflexivity. exact Hsel.
Qed.

Lemma generate_prompt_defaults_to_title_witness :
  (truthy_string "p1" = true /\ selectedSection editing = Some secC_edited)
  /\ generatePrompt editing = ""
  /\ body (generate_request "p1" secC_edited (generatePrompt editing))
     = [("prompt", JStr "Outlook"); ("temperature", JDec 7 1);
        ("max_tokens", JInt 800)].
Proof.
  split; [split; reflexivity|]. split; [reflexivity|].
  apply (generate_prompt_defaults_to_title "p1" secC_edited
           (Resolved secC_refined) (Resolved (listing [secA; secB; secC_refined]))
           editing eq_refl eq_refl).
Defined.

(** *** No handler lets an error escape *)

Lemma run_detail_api_resolved {A} (req : Request) (data : A) (p : Page) :
  api_request req (Resolved data) p = (inr data, emit (Api req) p).
Proof. reflexivity. Qed.

Ltac open_handlers :=
  unfold handleExport, handleGenerate, handleRefine, clickSave,
    handleSectionUpdate, fetchProject, fetchSections, refine_call,
    with_projectId, save_as.

Ltac run_api :=
  unfold exec, outcome, bind, finally, try_catch, modify, ret, throw;
  repeat (cbv beta iota;
          first [rewrite run_detail_api_resolved | rewrite run_api_rejected]);
  cbv beta iota.

Ltac split_replies :=
  repeat match goal with
         | |- context [api_request _ ?r] => is_var r; destruct r
         | |- context [response_ok ?c] => destruct (response_ok c)
         | |- context [match ?r with Resolved _ => _ | RejectedWith _ => _ end] =>
             destruct r
         | |- context [match ?r with NetworkError _ => _ | Responded _ _ => _ end] =>
             destruct r
         | |- context [match ?r with inl _ => _ | inr _ => _ end] =>
             is_var r; destruct r
         | |- context [selectedSection ?p] => is_var p; destruct (selectedSection p)
         | |- context [savingSection ?p] => is_var p; destruct (savingSection p)
         end.

(** X14: no handler of the page lets an error escape, whatever the
    server answers: loading the project, loading the sections, saving,
    generating, refining and exporting all complete normally, the
    failure going to the error slot.  When the handler runs (a project
    id is present, and a section is selected for generate and refine),
    its busy flag is false at the end in every outcome. *)
Theorem handlers_always_return
    (projectId : option string) (base : option string) (section : SectionT)
    (project_reply : AxiosResult Project)
    (list_reply : AxiosResult SectionListResponse)
    (save_reply : AxiosResult unit) (llm_reply : AxiosResult SectionT)
    (export_reply : FetchReply) (p : Page) :
  (outcome (fetchProject projectId project_reply) p = inr tt
   /\ outcome (fetchSections projectId list_reply) p = inr tt
   /\ outcome (handleSectionUpdate projectId section save_reply list_reply) p = inr tt
   /\ outcome (clickSave projectId save_reply list_reply) p = inr tt
   /\ outcome (handleGenerate projectId llm_reply list_reply) p = inr tt
   /\ outcome (handleRefine projectId llm_reply list_reply) p = inr tt
   /\ outcome (handleExport projectId base export_reply) p = inr tt)
  /\ (forall pid, projectId = Some pid -> truthy_string pid = true ->
        loading (exec (fetchSections projectId list_reply) p) = false
        /\ savingSection
             (exec (handleSectionUpdate projectId section save_reply list_reply) p)
           = false
        /\ exporting (exec (handleExport projectId base export_reply) p) = false
        /\ (is_Some (selectedSection p) ->
            llmBusy (exec (handleGenerate projectId llm_reply list_reply) p) = false
            /\ llmBusy (exec (handleRefine projectId llm_reply list_reply) p) = false)).
Proof.
  split.
  - split_and!; rewrite ?outcome_gets_bind; open_handlers;
      rewrite ?outcome_gets_bind;
      (destruct projectId as [pid|]; [destruct (truthy_string pid)|]);
      split_replies; run_api; reflexivity.
  - intros pid -> Hpid. split_and!.
    + destruct list_reply.
      * rewrite exec_fetchSections_resolved by exact Hpid. reflexivity.
      * rewrite exec_fetchSections_rejected by exact Hpid. reflexivity.
    + destruct save_reply as [[]|err].
      * rewrite exec_handleSectionUpdate_resolved by exact Hpid. reflexivity.
      * rewrite exec_handleSectionUpdate_rejected by exact Hpid. reflexivity.
    + unfold handleExport. rewrite exec_gets_bind.
      rewrite (with_projectId_truthy _ _ Hpid). unfold save_as.
      split_replies; reflexivity.
    + intros [buffer Hsel]. split.
      * destruct llm_reply.
        -- rewrite (exec_handleGenerate_resolved pid buffer) by assumption.
           reflexivity.
        -- rewrite (exec_handleGenerate_rejected pid buffer) by assumption.
           reflexivity.
      * destruct llm_reply.
        -- rewrite (exec_handleRefine_resolved pid buffer) by assumption.
           reflexivity.
        -- rewrite (exec_handleRefine_rejected pid buffer) by assumption.
           reflexivity.
Qed.

Lemma handlers_always_return_witness :
  let reply := RejectedWith (http_error 500 (Some "LLM backend unavailable")) in
  (Some "p1" = Some "p1" /\ truthy_string "p1" = true
   /\ is_Some (selectedSection editing))
  /\ llmBusy (exec (handleRefine (Some "p1") reply (Resolved (listing []))) editing)
     = false.
Proof.
  cbv zeta.
  assert (Hsel : is_Some (selectedSection editing)) by (eexists; reflexivity).
  split; [split_and!; [reflexivity | reflexivity | exact Hsel]|].
  destruct (handlers_always_return (Some "p1") None secA
              (RejectedWith (http_error 404 None)) (Resolved (listing []))
              (Resolved tt)
              (RejectedWith (http_error 500 (Some "LLM backend unavailable")))
              (NetworkError {| message := None |}) editing) as (_ & Hflags).
  destruct (Hflags "p1" eq_refl eq_refl) as (_ & _ & _ & Hllm).
  exact (proj2 (Hllm Hsel)).
Defined.

(** *** Export, in every outcome *)

Lemma export_request_first pid base reply p :
  truthy_string pid = true ->
  exists rest,
    io (exec (handleExport (Some pid) base reply) p)
    = io p ++ Fetch (export_url base pid (exportFormat p))
                (export_headers (authorization (world p))) :: rest.
Proof.
  intros H. unfold handleExport. rewrite !exec_gets_bind.
  rewrite !(with_projectId_truthy _ _ H). unfold save_as.
  destruct reply as [e|code [e|blob]]; [| destruct (response_ok code)..];
    simpl; rewrite <- ?app_assoc; eexists; reflexivity.
Qed.

(** X15: an export saves a file exactly when the response has a
    success status and its body can be read.  Then the handler creates
    one object URL for the bytes received, clicks one link whose
    download name is the title of the loaded project (or [document]
    when no project is loaded), a dot and the format, revokes the URL,
    and leaves the error slot empty.  In every other outcome (no
    response, a status outside 200-299, a body that cannot be read) it
    saves nothing and fills the error slot: with [Export failed] for a
    bad status, with the message of the error otherwise, or with
    [Unable to download export] when the error has no message. *)
Theorem export_saves_only_on_success
    (pid : string) (base : option string) (reply : FetchReply) (p : Page) :
  truthy_string pid = true ->
  let p' := exec (handleExport (Some pid) base reply) p in
  let request := Fetch (export_url base pid (exportFormat p))
                       (export_headers (authorization (world p))) in
  match reply with
  | Responded code (inr blob) =>
      if response_ok code
      then io p' = io p ++ [request;
                            CreateObjectURL blob;
                            LinkClick (object_url blob)
                              (match project p with
                               | Some loaded => p_title loaded
                               | None => "document"
                               end +:+ "." +:+ format_name (exportFormat p));
                            RevokeObjectURL (object_url blob)]
           /\ error p' = None
      else io p' = io p ++ [request] /\ error p' = Some "Export failed"
  | Responded code (inl e) =>
      io p' = io p ++ [request]
      /\ error p' = Some (if response_ok code
                          then default "Unable to download export" (message e)
                          else "Export failed")
  | NetworkError e =>
      io p' = io p ++ [request]
      /\ error p' = Some (default "Unable to download export" (message e))
  end.
Proof.
  intros H. cbv zeta. unfold handleExport. rewrite !exec_gets_bind.
  rewrite !(with_projectId_truthy _ _ H). unfold save_as, download_name.
  destruct reply as [e|code [e|blob]]; [| destruct (response_ok code)..];
    (split; [|reflexivity]); simpl; rewrite <- ?app_assoc; reflexivity.
Qed.

Lemma export_saves_only_on_success_witness :
  let bytes : Blob := [Byte.x50; Byte.x4b] in
  let p' := exec (handleExport (Some "p1") None (Responded 200 (inr bytes))) editing in
  truthy_string "p1" = true
  /\ List.filter is_save (io p')
     = [CreateObjectURL bytes; LinkClick (object_url bytes) "document.docx";
        RevokeObjectURL (object_url bytes)]
  /\ error p' = None.
Proof.
  cbv zeta. split; [reflexivity|].
  destruct (export_saves_only_on_success "p1" None
              (Responded 200 (inr [Byte.x50; Byte.x4b])) editing eq_refl)
    as (Hio & Herr).
  split; [reflexivity | exact Herr].
Defined.

(** X16: the export request, sent outside the axios client, carries
    the bearer header of the signed-in user and none when nobody is:
    for a page whose session store is in a state reached from a fresh
    browser, the headers of the request are the single header
    [Authorization: Bearer <token>] when the access token is a
    non-empty string, and no header at all otherwise (after a logout
    or a 401, for example). *)
Theorem export_carries_bearer
    (evs : list Session.Event) (pid : string) (base : option string)
    (reply : FetchReply) (p : Page) :
  truthy_string pid = true ->
  world p = Session.run evs Session.fresh ->
  let p' := exec (handleExport (Some pid) base reply) p in
  exists rest,
    io p' = io p ++ Fetch (export_url base pid (exportFormat p))
                      (match Session.accessToken (Session.authState (world p)) with
                       | Some t => if String.eqb t "" then []
                                   else [("Authorization", "Bearer " +:+ t)]
                       | None => []
                       end) :: rest.
Proof.
  intros H Hw. cbv zeta.
  assert (Hh : export_headers (authorization (world p))
               = match Session.accessToken (Session.authState (world p)) with
                 | Some t => if String.eqb t "" then []
                             else [("Authorization", "Bearer " +:+ t)]
                 | None => []
                 end).
  { unfold authorization. rewrite Hw.
    rewrite (proj1 (proj2 (SessionMoreFacts.settled_reachable evs))).
    unfold SessionMore.bearer, export_headers, truthy_string.
    destruct (Session.accessToken _) as [t|]; [|reflexivity].
    destruct (String.eqb t ""); reflexivity. }
  rewrite <- Hh.
  pose proof (export_request_first pid base reply p H) as [rest Hio].
  exists rest. exact Hio.
Qed.

Lemma export_carries_bearer_witness :
  let signed_out := setWorld (Session.step Session.Logout Session.alice_world) editing in
  (truthy_string "p1" = true
   /\ world signed_out
      = Session.run [Session.Login "alice@example.org" "secret"
                       (Resolved Session.alice_token);
                     Session.Logout] Session.fresh)
  /\ exists rest,
       io (exec (handleExport (Some "p1") None (Responded 401 (inr []))) signed_out)
       = Fetch "http://127.0.0.1:8000/projects/p1/export/?format=docx" [] :: rest.
Proof.
  cbv zeta. split; [split; reflexivity|].
  destruct (export_carries_bearer
              [Session.Login "alice@example.org" "secret"
                 (Resolved Session.alice_token); Session.Logout]
              "p1" None (Responded 401 (inr []))
              (setWorld (Session.step Session.Logout Session.alice_world) editing)
              eq_refl eq_refl) as [rest Hio].
  exists rest. exact Hio.
Defined.

(** *** Loading the project *)

(** X17: loading the project stores the project received and touches
    nothing else; when it fails, the project shown stays the one there
    was and the error slot holds the server's detail or else [Unable to
    load project].  The loading flag of the page belongs to the section
    list: loading the project never changes it.  The file saved by an
    export is named after the project loaded last. *)
Theorem fetchProject_sets_project
    (pid : string) (reply : AxiosResult Project) (base : option string)
    (blob : Blob) (p : Page) :
  truthy_string pid = true ->
  let p' := exec (fetchProject (Some pid) reply) p in
  io p' = io p ++ [Api (project_request pid)]
  /\ loading p' = loading p
  /\ sections p' = sections p
  /\ selectedSection p' = selectedSection p
  /\ match reply with
     | Resolved data =>
         project p' = Some data /\ error p' = error p
         /\ List.filter is_save
              (io (exec (handleExport (Some pid) base (Responded 200 (inr blob))) p'))
            = List.filter is_save (io p)
              ++ [CreateObjectURL blob;
                  LinkClick (object_url blob)
                    (p_title data +:+ "." +:+ format_name (exportFormat p));
                  RevokeObjectURL (object_url blob)]
     | RejectedWith err =>
         project p' = project p
         /\ error p' = Some (detail_or err "Unable to load project")
     end.
Proof.
  intros H. cbv zeta. unfold fetchProject.
  rewrite !(with_projectId_truthy _ _ H).
  destruct reply as [data|err].
  - split_and!; try reflexivity.
    unfold handleExport. rewrite exec_gets_bind.
    rewrite (with_projectId_truthy _ _ H). simpl.
    rewrite !List.filter_app. simpl. rewrite !app_nil_r, <- !app_assoc.
    reflexivity.
  - run_api. split_and!; reflexivity.
Qed.

Lemma fetchProject_sets_project_witness :
  let report := {| p_id := "p1"; p_title := "Q3 Marketing Strategy";
                   doc_type := doc_docx; topic_prompt := None; user_id := "u1";
                   p_created_at := "2025-01-01T00:00:00"; p_updated_at := None;
                   section_count := Some 3 |} in
  truthy_string "p1" = true
  /\ project (exec (fetchProject (Some "p1") (Resolved report)) editing) = Some report.
Proof.
  cbv zeta. split; [reflexivity|].
  apply (fetchProject_sets_project "p1"
           (Resolved {| p_id := "p1"; p_title := "Q3 Marketing Strategy";
                        doc_type := doc_docx; topic_prompt := None; user_id := "u1";
                        p_created_at := "2025-01-01T00:00:00"; p_updated_at := None;
                        section_count := Some 3 |})
           None [] editing eq_refl).
Defined.

(** *** Adding a manual section *)

Ltac open_create :=
  unfold submitSectionForm, handleSectionCreate, on_page, fetchSections,
    with_projectId.

(** X18: adding a section sends the title, the content and the index
    of the form and nothing else.  When the request succeeds the form
    is reset to empty and the list is reloaded; when it fails the form
    keeps what the user typed, nothing is reloaded, the list is
    unchanged, and the error slot holds the server's detail or else
    [Unable to create section].  In both cases the handler completes
    normally with the saving flag cleared. *)
Theorem create_section_flow
    (pid : string) (reply : AxiosResult unit)
    (list_reply : AxiosResult SectionListResponse) (e : Editor) :
  truthy_string pid = true ->
  let e' := exec (handleSectionCreate (Some pid) reply list_reply) e in
  body (create_request pid (sectionForm e))
    = [("title", JStr (form_title (sectionForm e)));
       ("content", JStr (form_content (sectionForm e)));
       ("idx", JInt (form_idx (sectionForm e)))]
  /\ outcome (handleSectionCreate (Some pid) reply list_reply) e = inr tt
  /\ savingSection (page e') = false
  /\ match reply with
     | Resolved _ =>
         sectionForm e' = emptySection
         /\ io (page e') = io (page e) ++ [Api (create_request pid (sectionForm e));
                                          Api (sections_request pid)]
     | RejectedWith err =>
         sectionForm e' = sectionForm e
         /\ io (page e') = io (page e) ++ [Api (create_request pid (sectionForm e))]
         /\ sections (page e') = sections (page e)
         /\ error (page e') = Some (detail_or err "Unable to create section")
     end.
Proof.
  intros H. cbv zeta. split; [reflexivity|].
  unfold handleSectionCreate. rewrite outcome_gets_bind, !exec_gets_bind.
  open_create. rewrite !H.
  destruct reply as [[]|err]; [destruct list_reply as [l|err]|];
    run_api; split_and!; simpl; rewrite <- ?app_assoc; reflexivity.
Qed.

Lemma create_section_flow_witness :
  let e := {| page := editing;
              sectionForm := {| form_title := "Intro"; form_content := "";
                                form_idx := 0 |} |} in
  let e' := exec (handleSectionCreate (Some "p1")
                    (RejectedWith (http_error 422 (Some "idx must be unique")))
                    (Resolved (listing []))) e in
  truthy_string "p1" = true
  /\ sectionForm e' = sectionForm e
  /\ error (page e') = Some "idx must be unique".
Proof.
  cbv zeta. split; [reflexivity|].
  destruct (create_section_flow "p1"
              (RejectedWith (http_error 422 (Some "idx must be unique")))
              (Resolved (listing []))
              {| page := editing;
                 sectionForm := {| form_title := "Intro"; form_content := "";
                                   form_idx := 0 |} |} eq_refl)
    as (_ & _ & _ & Hf & _ & _ & He).
  split; [exact Hf | exact He].
Defined.

(** X19: the form that adds a section sends nothing when its title is
    empty, when its index is negative, or while a save is in flight:
    the page and the form are left exactly as they were.  With a
    non-empty title, an index of at least 0 and no save in flight, the
    submission runs the creation handler. *)
Theorem section_form_validation
    (projectId : option string) (reply : AxiosResult unit)
    (list_reply : AxiosResult SectionListResponse) (e : Editor) :
  (form_title (sectionForm e) = "" \/ form_idx (sectionForm e) < 0
   \/ savingSection (page e) = true ->
   exec (submitSectionForm projectId reply list_reply) e = e)
  /\ (form_title (sectionForm e) <> "" -> 0 <= form_idx (sectionForm e) ->
      savingSection (page e) = false ->
      submitSectionForm projectId reply list_reply e
      = handleSectionCreate projectId reply list_reply e).
Proof.
  split.
  - intros Hbad. unfold submitSectionForm. rewrite exec_gets_bind.
    destruct (savingSection (page e)); [reflexivity|].
    assert (Hv : sectionFormValid (sectionForm e) = false).
    { unfold sectionFormValid, truthy_string.
      destruct Hbad as [Ht|[Hi|Hs]]; [| |discriminate Hs].
      - rewrite Ht. reflexivity.
      - apply andb_false_iff. right. apply Z.leb_gt, Hi. }
    rewrite Hv. reflexivity.
  - intros Ht Hi Hs. unfold submitSectionForm, bind at 1, gets. rewrite Hs.
    assert (Hv : sectionFormValid (sectionForm e) = true).
    { unfold sectionFormValid, truthy_string.
      apply andb_true_iff. split.
      - apply negb_true_iff, String.eqb_neq, Ht.
      - apply Z.leb_le, Hi. }
    rewrite Hv. reflexivity.
Qed.

Lemma section_form_validation_witness :
  let e := {| page := editing;
              sectionForm := {| form_title := ""; form_content := "Body only";
                                form_idx := 0 |} |} in
  form_title (sectionForm e) = ""
  /\ exec (submitSectionForm (Some "p1") (Resolved tt) (Resolved (listing []))) e = e.
Proof.
  cbv zeta. split; [reflexivity|].
  apply (section_form_validation (Some "p1") (Resolved tt) (Resolved (listing []))
           {| page := editing;
              sectionForm := {| form_title := ""; form_content := "Body only";
                                form_idx := 0 |} |}).
  left. reflexivity.
Defined.

End DetailMoreFacts.

(** * More on the projects page *)

Module ProjectsMoreFacts.
Import Projects ProjectsMore ProjectsFacts.

Ltac open_projects :=
  unfold submitCreateForm, handleCreate, handleGenerate, on_page, fetchProjects.

(** X20: creating a project sends the title and the document type of
    the form, and the topic prompt as text when there is one and as
    null when it is blank.  When the request succeeds the form is reset
    to its defaults and the project list is reloaded; when it fails the
    form keeps what the user typed, nothing is reloaded, the list shown
    is unchanged and the error slot holds the server's detail or else
    [Unable to create project].  The handler always completes normally
    with the creating flag cleared. *)
Theorem create_project_flow
    (reply : AxiosResult unit) (list_reply : AxiosResult ProjectListResponse)
    (d : Dashboard) :
  let d' := exec (handleCreate reply list_reply) d in
  body (create_request (form d))
    = [("title", JStr (form_title (form d)));
       ("doc_type", JStr (form_doc_type (form d)));
       ("topic_prompt", if String.eqb (form_topic_prompt (form d)) ""
                        then JNull else JStr (form_topic_prompt (form d)))]
  /\ outcome (handleCreate reply list_reply) d = inr tt
  /\ creating d' = false
  /\ match reply with
     | Resolved _ =>
         form d' = defaultProjectForm
         /\ io (page d') = io (page d) ++ [create_request (form d); projects_request]
     | RejectedWith err =>
         form d' = form d
         /\ io (page d') = io (page d) ++ [create_request (form d)]
         /\ projects (page d') = projects (page d)
         /\ error (page d') = Some (detail_or err "Unable to create project")
     end.
Proof.
  cbv zeta. split.
  { unfold create_request, or_null, truthy_string. simpl.
    destruct (String.eqb (form_topic_prompt (form d)) ""); reflexivity. }
  unfold handleCreate. rewrite outcome_gets_bind, !exec_gets_bind.
  open_projects.
  destruct reply as [[]|err]; [destruct list_reply as [l|err]|];
    run_api; split_and!; simpl; rewrite <- ?app_assoc; reflexivity.
Qed.

(** X21: generation of a project, in every outcome.  Without a project
    selected the handler sends nothing and asks to [Select a project
    first].  With one, it sends the generation request; if that fails
    the project list is not reloaded and stays as shown, and the error
    slot holds the server's detail or else [Unable to generate
    content]; if it succeeds the list is reloaded.  A blank outline
    format is sent as null.  The handler always completes normally, and
    once it has sent the request the generating flag is false at the
    end. *)
Theorem generate_project_flow
    (reply : AxiosResult unit) (list_reply : AxiosResult ProjectListResponse)
    (p : Page) :
  let p' := exec (handleGenerate reply list_reply) p in
  outcome (handleGenerate reply list_reply) p = inr tt
  /\ (projectId (generator p) = "" ->
      io p' = io p /\ error p' = Some "Select a project first"
      /\ generating p' = generating p /\ projects p' = projects p)
  /\ (projectId (generator p) <> "" ->
      generating p' = false
      /\ (outline_format (generator p) = "" ->
          In ("outline_format", JNull) (body (generate_request (generator p))))
      /\ match reply with
         | Resolved _ =>
             io p' = io p ++ [generate_request (generator p); projects_request]
         | RejectedWith err =>
             io p' = io p ++ [generate_request (generator p)]
             /\ projects p' = projects p
             /\ error p' = Some (detail_or err "Unable to generate content")
         end).
Proof.
  cbv zeta. unfold handleGenerate.
  rewrite outcome_gets_bind, !exec_gets_bind. cbv zeta. split_and!.
  - open_projects. destruct (truthy_string (projectId (generator p)));
      [|reflexivity].
    destruct reply as [[]|err]; [destruct list_reply as [l|err]|];
      run_api; reflexivity.
  - intros ->. split_and!; reflexivity.
  - intros Hp.
    assert (Ht : truthy_string (projectId (generator p)) = true).
    { unfold truthy_string. apply negb_true_iff, String.eqb_neq, Hp. }
    rewrite !Ht. open_projects. split_and!.
    + destruct reply as [[]|err]; [destruct list_reply as [l|err]|];
        run_api; reflexivity.
    + intros Ho. unfold generate_request, or_null. rewrite Ho. simpl. auto.
    + destruct reply as [[]|err]; [destruct list_reply as [l|err]|];
        run_api; try split_and!; simpl; rewrite <- ?app_assoc; reflexivity.
Qed.

Lemma generate_project_flow_witness :
  let p := setGenerator {| projectId := ""; num_sections := 5;
                           include_outline := true; outline_format := "" |}
             initial in
  projectId (generator p) = ""
  /\ io (exec (handleGenerate (Resolved tt)
                (RejectedWith (http_error 500 None))) p) = []
  /\ error (exec (handleGenerate (Resolved tt)
                   (RejectedWith (http_error 500 None))) p)
     = Some "Select a project first".
Proof.
  cbv zeta. split; [reflexivity|].
  destruct (generate_project_flow (Resolved tt) (RejectedWith (http_error 500 None))
              (setGenerator {| projectId := ""; num_sections := 5;
                               include_outline := true; outline_format := "" |}
                 initial)) as (_ & Hnone & _).
  destruct (Hnone eq_refl) as (Hio & Herr & _).
  split; [exact Hio | exact Herr].
Defined.

(** *** The search box *)

Lemma includes_empty haystack : includes "" haystack = true.
Proof. destruct haystack; reflexivity. Qed.

(** X22: the search box only hides projects: whatever lower-casing
    the language applies, the projects shown are a sub-list of the
    projects loaded, in the same order; an empty search shows them
    all; a project is shown under a non-empty search exactly when its
    lower-cased title contains the lower-cased search text; and a
    search text whose lower-cased form is empty shows them all. *)
Theorem search_only_hides
    (toLowerCase : string -> string) (search : string) (projects : list Project) :
  sublist (filteredProjects toLowerCase search projects) projects
  /\ filteredProjects toLowerCase "" projects = projects
  /\ (search <> "" ->
      forall project,
        In project (filteredProjects toLowerCase search projects)
        <-> In project projects
            /\ includes (toLowerCase search) (toLowerCase (p_title project)) = true)
  /\ (toLowerCase search = "" ->
      filteredProjects toLowerCase search projects = projects).
Proof.
  unfold filteredProjects. split_and!.
  - destruct (truthy_string search); [|reflexivity].
    induction projects as [|a l IH]; simpl; [constructor|].
    destruct (matches toLowerCase search a); [apply sublist_skip|apply sublist_cons];
      exact IH.
  - reflexivity.
  - intros Hs project. rewrite (SessionFacts.truthy_string_nonempty _ Hs).
    apply List.filter_In.
  - intros Hl. destruct (truthy_string search); [|reflexivity].
    induction projects as [|a l IH]; simpl; [reflexivity|].
    unfold matches at 1. rewrite Hl, includes_empty. f_equal. exact IH.
Qed.

Lemma search_only_hides_witness :
  let keep (s : string) := s in
  let report := {| p_id := "p1"; p_title := "q3 marketing"; doc_type := doc_docx;
                   topic_prompt := None; user_id := "u1";
                   p_created_at := "2025-01-01T00:00:00"; p_updated_at := None;
                   section_count := None |} in
  let deck := {| p_id := "p2"; p_title := "board deck"; doc_type := doc_pptx;
                 topic_prompt := None; user_id := "u1";
                 p_created_at := "2025-01-02T00:00:00"; p_updated_at := None;
                 section_count := None |} in
  "deck" <> ""
  /\ (In deck (filteredProjects keep "deck" [report; deck])
      <-> In deck [report; deck] /\ includes "deck" (p_title deck) = true).
Proof.
  cbv zeta. split; [discriminate|].
  apply (search_only_hides (fun s => s) "deck"). discriminate.
Defined.

End ProjectsMoreFacts.

(** * Sign-in and registration pages *)

Module AuthPagesFacts.
Import AuthPages.

(** A call of the store that fails throws what the transport threw. *)
Lemma run_login_rejected email password err w :
  Session.login email password (RejectedWith err) w
  = (inl err, exec (@Session.intercept unit err) w).
Proof.
  unfold Session.login, Session.api_call, bind.
  rewrite SessionFacts.run_intercept. reflexivity.
Qed.

Lemma run_register_rejected email password err login_reply w :
  Session.register email password (RejectedWith err) login_reply w
  = (inl err, exec (@Session.intercept unit err) w).
Proof.
  unfold Session.register, Session.api_call, bind.
  rewrite SessionFacts.run_intercept. reflexivity.
Qed.

Lemma run_register_login_rejected email password err w :
  Session.register email password (Resolved tt) (RejectedWith err) w
  = (inl err, exec (@Session.intercept unit err) w).
Proof.
  unfold Session.register, Session.api_call, bind, ret. cbv beta iota.
  apply run_login_rejected.
Qed.

Ltac open_auth :=
  unfold registerSubmit, loginSubmit, on_form, in_session.

Ltac run_auth :=
  unfold exec, outcome, bind, finally, try_catch, modify, ret;
  cbv beta iota;
  rewrite ?run_login_rejected, ?run_register_rejected,
    ?run_register_login_rejected;
  unfold Session.register, Session.login, Session.api_call.

(** X23: submitting the sign-in form.  The handler always completes
    normally with the loading flag cleared.  When the login succeeds
    the page navigates once, to the [redirect] parameter of the URL
    when there is one and to [/projects] otherwise, the credential in
    memory is the pair of tokens received with the e-mail typed, and the
    error slot is empty.  When it fails the page does not navigate, and
    the error slot holds the server's detail or else [Unable to login];
    unless the status was 401 the session is untouched. *)
Theorem login_submit_flow
    (redirect : option string) (reply : AxiosResult Session.LoginData)
    (p : LoginPage) :
  let p' := exec (loginSubmit redirect reply) p in
  outcome (loginSubmit redirect reply) p = inr tt
  /\ loading p' = false
  /\ match reply with
     | Resolved data =>
         calls p' = calls p ++ [CallLogin (email p) (password p);
                                CallNavigate (default "/projects" redirect)]
         /\ error p' = None
         /\ Session.authState (world p')
            = {| Session.accessToken := Some (Session.access_token data);
                 Session.refreshToken := Session.refresh_token data;
                 Session.userEmail := Some (email p) |}
     | RejectedWith err =>
         calls p' = calls p ++ [CallLogin (email p) (password p)]
         /\ error p' = Some (detail_or err "Unable to login")
         /\ (has_status err 401 = false -> world p' = world p)
     end.
Proof.
  cbv zeta. unfold loginSubmit. rewrite outcome_gets_bind, !exec_gets_bind.
  open_auth. destruct reply as [data|err].
  - unfold Session.login, Session.api_call. split_and!; try reflexivity.
    + simpl. rewrite <- app_assoc. reflexivity.
    + simpl. destruct (truthy_string (Session.access_token data)); reflexivity.
  - run_auth. split_and!; try reflexivity.
    intros Hs. simpl. apply SessionMoreFacts.exec_intercept_other, Hs.
Qed.

Lemma login_submit_flow_witness :
  let p := {| email := "bob@example.org"; password := "guess"; loading := false;
              error := None; calls := []; world := Session.fresh |} in
  let p' := exec (loginSubmit None
                    (RejectedWith (http_error 400 (Some "Incorrect email or password"))))
                 p in
  has_status (http_error 400 (Some "Incorrect email or password")) 401 = false
  /\ world p' = world p
  /\ error p' = Some "Incorrect email or password".
Proof.
  cbv zeta.
  destruct (login_submit_flow None
              (RejectedWith (http_error 400 (Some "Incorrect email or password")))
              {| email := "bob@example.org"; password := "guess"; loading := false;
                 error := None; calls := []; world := Session.fresh |})
    as (_ & _ & _ & Herr & Hw).
  split; [reflexivity|]. split; [exact (Hw eq_refl) | exact Herr].
Defined.

(** X24: submitting the registration form.  When the two passwords
    differ nothing is asked of the session store: no registration and
    no login are attempted, the page does not navigate, the session and
    the loading flag are as before, and the error slot reads [Passwords
    do not match].  When they agree, the page navigates to [/projects]
    only if both the registration and the login that follows succeed,
    and is then signed in with the e-mail typed; if either fails the
    page does not navigate and the error slot holds the server's
    detail or else [Unable to register].  The handler always completes
    normally, and once it has called the store the loading flag is
    false at the end. *)
Theorem register_submit_flow
    (reply : AxiosResult unit) (login_reply : AxiosResult Session.LoginData)
    (r : RegisterPage) :
  let r' := exec (registerSubmit reply login_reply) r in
  outcome (registerSubmit reply login_reply) r = inr tt
  /\ (password (form r) <> confirmPassword r ->
      calls (form r') = calls (form r)
      /\ world (form r') = world (form r)
      /\ loading (form r') = loading (form r)
      /\ error (form r') = Some "Passwords do not match")
  /\ (password (form r) = confirmPassword r ->
      loading (form r') = false
      /\ match reply, login_reply with
         | Resolved _, Resolved data =>
             calls (form r')
             = calls (form r) ++ [CallRegister (email (form r)) (password (form r));
                                  CallNavigate "/projects"]
             /\ error (form r') = None
             /\ Session.userEmail (Session.authState (world (form r')))
                = Some (email (form r))
             /\ Session.accessToken (Session.authState (world (form r')))
                = Some (Session.access_token data)
         | Resolved _, RejectedWith err | RejectedWith err, _ =>
             calls (form r')
             = calls (form r) ++ [CallRegister (email (form r)) (password (form r))]
             /\ error (form r') = Some (detail_or err "Unable to register")
         end).
Proof.
  cbv zeta. unfold registerSubmit.
  rewrite outcome_gets_bind, !exec_gets_bind. split_and!.
  - destruct (String.eqb (password (form r)) (confirmPassword r)); simpl;
      [|reflexivity].
    open_auth.
    destruct reply as [[]|err]; [destruct login_reply as [data|err]|];
      run_auth; reflexivity.
  - intros Hne. apply String.eqb_neq in Hne. rewrite !Hne. simpl.
    split_and!; reflexivity.
  - intros Heq. apply String.eqb_eq in Heq. rewrite !Heq. simpl.
    open_auth.
    destruct reply as [[]|err]; [destruct login_reply as [data|err]|];
      run_auth;
      split_and!; simpl; rewrite <- ?app_assoc; try reflexivity;
      destruct (truthy_string (Session.access_token data)); reflexivity.
Qed.

Lemma register_submit_flow_witness :
  let r := {| form := {| email := "bob@example.org"; password := "secret";
                         loading := false; error := None; calls := [];
                         world := Session.fresh |};
              confirmPassword := "secrte" |} in
  let r' := exec (registerSubmit (Resolved tt) (Resolved Session.alice_token)) r in
  password (form r) <> confirmPassword r
  /\ calls (form r') = []
  /\ world (form r') = Session.fresh
  /\ error (form r') = Some "Passwords do not match".
Proof.
  cbv zeta.
  assert (Hne : "secret" <> "secrte") by discriminate.
  destruct (register_submit_flow (Resolved tt) (Resolved Session.alice_token)
              {| form := {| email := "bob@example.org"; password := "secret";
                            loading := false; error := None; calls := [];
                            world := Session.fresh |};
                 confirmPassword := "secrte" |}) as (_ & Hm & _).
  destruct (Hm Hne) as (Hc & Hw & _ & He).
  split; [exact Hne|]. split_and!; [exact Hc | exact Hw | exact He].
Defined.

End AuthPagesFacts.

(** * Replies that are not authorization failures *)

Module TransportMoreFacts.
Import Session SessionFacts.

(** X25: only a 401 signs the user out.  A reply that resolves, a
    failure without response (time-out, network), and a failure with
    any status other than 401 (403, 404, 422, 500, ...) leave the
    credential, the headers and the storage exactly as they were,
    whether the request came from the store itself, from the detail
    page or from the projects page; the failure still reaches the
    caller. *)
Theorem only_401_invalidates
    (A : Type) (reply : AxiosResult A) (req : Request)
    (w : World) (p : Detail.Page) (q : Projects.Page) :
  match reply with
  | Resolved _ => True
  | RejectedWith error => has_status error 401 = false
  end ->
  exec (api_call reply) w = w
  /\ Detail.world (exec (Detail.api_request req reply) p) = Detail.world p
  /\ Projects.world (exec (Projects.api_request req reply) q) = Projects.world q
  /\ match reply with
     | Resolved data => outcome (api_call reply) w = inr data
     | RejectedWith error =>
         outcome (api_call reply) w = inl error
         /\ step (Rejection error) w = w
         /\ outcome (Detail.api_request req reply) p = inl error
     end.
Proof.
  intros H. destruct reply as [data|error].
  - split_and!; reflexivity.
  - pose proof (SessionMoreFacts.exec_intercept_other (A:=unit) error) as Hsame.
    split_and!.
    + unfold api_call. apply SessionMoreFacts.exec_intercept_other, H.
    + unfold exec. rewrite DetailFacts.run_api_rejected.
      unfold Detail.intercepted. simpl. apply Hsame, H.
    + unfold exec. rewrite ProjectsFacts.run_projects_api_rejected.
      unfold Projects.intercepted. simpl. apply Hsame, H.
    + unfold api_call. apply outcome_intercept.
    + unfold step, handle. rewrite Hsame by exact H.
      apply SessionMoreFacts.commit_same.
    + unfold outcome. rewrite DetailFacts.run_api_rejected. reflexivity.
Qed.

Lemma only_401_invalidates_witness :
  let forbidden := http_error 403 (Some "Not enough permissions") in
  has_status forbidden 401 = false
  /\ Detail.world (exec (@Detail.api_request unit (Detail.sections_request "p1")
                           (RejectedWith forbidden)) Detail.editing)
     = alice_world.
Proof.
  cbv zeta. split; [reflexivity|].
  apply (only_401_invalidates unit
           (RejectedWith (http_error 403 (Some "Not enough permissions")))
           (Detail.sections_request "p1") alice_world Detail.editing
           Projects.initial).
  reflexivity.
Defined.

End TransportMoreFacts.
